(** * Request telemetry pipeline: prom.py and tracing.py

    A shallow embedding of the Prometheus middleware ([prom.py]) and of the
    tracing request hook ([tracing.py]), with the properties of the
    specification stated over it.

    Conventions.
    - A Python [str] is the list of its code points ([list N]); [lit]
      turns an ASCII literal of the source into such a list.
    - A Python [int] is a [Z]; a Python [float] is a primitive binary64
      float.
    - Code that can raise returns a [Result]; code that mutates the
      process (registry, metric children, the app object) threads the
      mutated state explicitly and returns it also when it raises, since
      Python keeps the mutations made before an exception. *)

From Stdlib Require Import ZArith NArith List String Ascii Lia Floats.
From stdpp Require Import base option list gmap.

Local Open Scope Z_scope.

(** ** Python values *)

Module Py.

Abbreviation str := (list N).

(** An ASCII literal of the source as a Python string. *)
Definition lit (s : string) : str :=
  List.map N_of_ascii (list_ascii_of_string s).

Inductive Exn : Type :=
| ValueError (msg : str)
| TypeError (msg : str)
| IndexError (msg : str)
| UnicodeDecodeError
| Exception (msg : str).

Inductive Result (A : Type) : Type :=
| Ok (a : A)
| Raise (e : Exn).
Arguments Ok {A} a.
Arguments Raise {A} e.

(** The character of a decimal digit: [chr(ord('0') + d)]. *)
Definition digit_char (d : Z) : N := Z.to_N (48 + d).

(** Decimal digits of a non-negative integer, most significant first.
    The fuel is the binary length of [n], which bounds its decimal
    length. *)
Fixpoint digits_fuel (fuel : nat) (n : Z) (acc : str) : str :=
  match fuel with
  | O => acc
  | S f =>
      let acc' := digit_char (n mod 10) :: acc in
      if n <? 10 then acc' else digits_fuel f (n / 10) acc'
  end.

Definition digits (n : Z) : str :=
  digits_fuel (S (Z.to_nat (Z.log2 n))) n [].

(** [str(n)] for an [int]: a minus sign for negatives, then the decimal
    digits without leading zeros. *)
Definition int_to_str (n : Z) : str :=
  if n <? 0 then lit "-" ++ digits (- n) else digits n.

(** The values the label dictionaries of [prom.py] hold. *)
Inductive Val : Type :=
| VStr (s : str)
| VInt (n : Z)
| VNone.

(** [str(v)], as [prometheus_client] applies it to every label value. *)
Definition to_str (v : Val) : str :=
  match v with
  | VStr s => s
  | VInt n => int_to_str n
  | VNone => lit "None"
  end.

(** [s.upper()] and [s.lower()] on the ASCII letters. HTTP method tokens
    and header names are ASCII, where this agrees with Python. *)
Definition upper_char (c : N) : N :=
  if ((97 <=? c) && (c <=? 122))%N then (c - 32)%N else c.
Definition lower_char (c : N) : N :=
  if ((65 <=? c) && (c <=? 90))%N then (c + 32)%N else c.
Definition upper (s : str) : str := List.map upper_char s.
Definition lower (s : str) : str := List.map lower_char s.

End Py.
Export Py.

(** ** The part of [prometheus_client] that [prom.py] calls

    The library is not part of the repository; what is modelled is the
    interface the source relies on: a metric is declared with a name and
    a list of label names, [labels], called with keyword arguments, resolves a dictionary of
    label values to the tuple of their [str()] renderings in declaration
    order, [inc()] adds one to the counter child at that tuple and
    [observe(x)] records [x] in the histogram child at that tuple. A
    histogram child is kept as the list of its observations, from which
    buckets, sum and count derive. *)

Module Client.

Abbreviation LabelTuple := (list str).

Record MetricState : Type := {
  counter_values : gmap LabelTuple Z;
  histogram_values : gmap LabelTuple (list float)
}.

Definition empty_state : MetricState :=
  {| counter_values := ∅; histogram_values := ∅ |}.

(** The value of a counter series, a series never touched reading 0. *)
Definition value_at (m : gmap LabelTuple Z) (k : LabelTuple) : Z :=
  default 0 (m !! k).

Definition observations_at (m : gmap LabelTuple (list float))
    (k : LabelTuple) : list float :=
  default [] (m !! k).

(** Lookup in a keyword dictionary, kept in the order it was written. *)
Fixpoint kw_get (kwargs : list (str * Val)) (name : str) : option Val :=
  match kwargs with
  | [] => None
  | (k, v) :: rest => if decide (k = name) then Some v else kw_get rest name
  end.

(** [metric.labels] with keyword arguments: the names given must be the declared
    names ([sorted(kwargs) == sorted(labelnames)]), else [ValueError]. *)
Definition labels (labelnames : list str) (kwargs : list (str * Val))
    : Result LabelTuple :=
  if decide (kwargs.*1 ≡ₚ labelnames) then
    Ok (List.map (fun l => to_str (default VNone (kw_get kwargs l)))
          labelnames)
  else Raise (ValueError (lit "Incorrect label names")).

Definition inc (k : LabelTuple) (st : MetricState) : MetricState :=
  {| counter_values :=
       <[k := value_at (counter_values st) k + 1]> (counter_values st);
     histogram_values := histogram_values st |}.

Definition observe (k : LabelTuple) (x : float) (st : MetricState)
    : MetricState :=
  {| counter_values := counter_values st;
     histogram_values :=
       <[k := observations_at (histogram_values st) k ++ [x]]>
         (histogram_values st) |}.

(** Modelled from the spec: the scrape-time merge of the multiprocess
    collector, which lives in [prometheus_client] and not under the
    sources. Section 4.4: counters fold to the sum of the per-shard
    values per label-tuple, a label-tuple missing from a shard counting
    as 0; histograms add up bucket-wise, which on observation lists is
    their concatenation. *)
Definition merge_counters (shards : list (gmap LabelTuple Z))
    : gmap LabelTuple Z :=
  foldr (union_with (fun a b => Some (a + b))) ∅ shards.

Definition merge_histograms (shards : list (gmap LabelTuple (list float)))
    : gmap LabelTuple (list float) :=
  foldr (union_with (fun a b => Some (a ++ b))) ∅ shards.

Definition merge (shards : list MetricState) : MetricState :=
  {| counter_values := merge_counters (counter_values <$> shards);
     histogram_values := merge_histograms (histogram_values <$> shards) |}.

(** The sum of a label-tuple's value over the shards. *)
Definition shard_sum (shards : list (gmap LabelTuple Z)) (k : LabelTuple)
    : Z :=
  foldr Z.add 0 ((fun s => value_at s k) <$> shards).

(** [CONTENT_TYPE_LATEST] of the library. *)
Definition CONTENT_TYPE_LATEST : str :=
  lit "text/plain; version=0.0.4; charset=utf-8".

Inductive Registry : Type :=
| REGISTRY
| MultiProcessRegistry.

End Client.
Export Client.

(** ** The process *)

(** What the code reads and mutates outside its arguments. *)
Record World : Type := {
  environ : gmap str str;           (* os.environ *)
  isdir : str -> bool;              (* os.path.isdir *)
  wall_clock : float;               (* the reading of time.time() *)
  registered : list str;            (* names held by the default REGISTRY *)
  own : MetricState;                (* metric children of this process *)
  other_shards : list MetricState   (* shards of the other workers *)
}.

Definition set_clock (t : float) (w : World) : World :=
  {| environ := environ w; isdir := isdir w; wall_clock := t;
     registered := registered w; own := own w;
     other_shards := other_shards w |}.

Definition set_registered (names : list str) (w : World) : World :=
  {| environ := environ w; isdir := isdir w; wall_clock := wall_clock w;
     registered := names; own := own w;
     other_shards := other_shards w |}.

Definition set_own (st : MetricState) (w : World) : World :=
  {| environ := environ w; isdir := isdir w; wall_clock := wall_clock w;
     registered := registered w; own := st;
     other_shards := other_shards w |}.

(** A computation that may mutate the process and may raise. *)
Definition M (A : Type) : Type := World -> World * Result A.

Definition ret {A} (a : A) : M A := fun w => (w, Ok a).
Definition throw {A} (e : Exn) : M A := fun w => (w, Raise e).
Definition bind {A B} (m : M A) (f : A -> M B) : M B :=
  fun w =>
    match m w with
    | (w', Ok a) => f a w'
    | (w', Raise e) => (w', Raise e)
    end.

Notation "'do!' x <- m 'in' k" := (bind m (fun x => k))
  (at level 10, x name, m at level 100, k at level 200).

(** ** HTTP objects *)

Inductive Body : Type :=
| Raw (content : str)
| Exposition (snapshot : MetricState).

Record Request : Type := {
  method : str;
  path : str;
  req_headers : list (str * str)
}.

Record Response : Type := {
  resp_status_code : Z;
  resp_headers : list (str * str);
  body : Body
}.

(** [request.headers.get(key)]: the first header whose name is the
    lower-cased key, names being stored lower-cased. *)
Fixpoint headers_find (hs : list (str * str)) (key : str) : option str :=
  match hs with
  | [] => None
  | (k, v) :: rest => if decide (k = key) then Some v else headers_find rest key
  end.

Definition headers_get (hs : list (str * str)) (key : str) : option str :=
  headers_find hs (lower key).

(** ** prom.py *)

Module Prom.

(** [ResponseInfo], the named tuple handed to every metric handler. *)
Record ResponseInfo : Type := {
  exec_time : float;
  headers : list (str * str);
  status_code : Z;
  status_group : str;
  endpoint : str;
  info_method : str
}.

Definition Handler : Type := ResponseInfo -> M unit.
Definition ASGIApp : Type := Request -> M Response.

(** [s[0]]: the first character, [IndexError] on the empty string. *)
Definition first_char (s : str) : Result str :=
  match s with
  | c :: _ => Ok [c]
  | [] => Raise (IndexError (lit "string index out of range"))
  end.

(** [str(status_code)[0] + 'xx'] *)
Definition make_status_group (status_code : Z) : Result str :=
  match first_char (int_to_str status_code) with
  | Ok c => Ok (c ++ lit "xx")
  | Raise e => Raise e
  end.

(** [for handler in self.metrics: handler(info)] *)
Fixpoint run_handlers (metrics : list Handler) (info : ResponseInfo)
    : M unit :=
  match metrics with
  | [] => ret tt
  | handler :: rest =>
      do! _ <- handler info in run_handlers rest info
  end.

(** [PromMetricsMiddleware.dispatch]. The two readings of [time.time()]
    are the clock of the process before and after [call_next]. *)
Definition dispatch (metrics : list Handler) (request : Request)
    (call_next : ASGIApp) : M Response :=
  fun w0 =>
    let start := wall_clock w0 in
    match call_next request w0 with
    | (w1, Raise e) => (w1, Raise e)
    | (w1, Ok response) =>
        let exec_time := PrimFloat.sub (wall_clock w1) start in
        let headers := req_headers request in
        let status_code := resp_status_code response in
        match make_status_group status_code with
        | Raise e => (w1, Raise e)
        | Ok status_group =>
            let method := upper (method request) in
            let endpoint := path request in
            let info :=
              {| exec_time := exec_time;
                 headers := headers;
                 status_code := status_code;
                 status_group := status_group;
                 endpoint := endpoint;
                 info_method := method |} in
            match run_handlers metrics info w1 with
            | (w2, Raise e) => (w2, Raise e)
            | (w2, Ok _) => (w2, Ok response)
            end
        end
    end.

(** [_get_registry]. Only the first of the two adjacent literals of the
    message is an f-string, so the braces of the second stay as written. *)
Definition invalid_directory : str :=
  lit "Unable to generate Prometheus registry: " ++
  lit "invalid directory {pmd}".

Definition _get_registry (w : World) : Result Registry :=
  match environ w !! lit "prometheus_multiproc_dir" with
  | Some pmd =>
      if isdir w pmd then Ok MultiProcessRegistry
      else Raise (ValueError invalid_directory)
  | None => Ok REGISTRY
  end.

(** Declaring a metric registers its name with the default registry,
    which refuses a name it already holds. *)
Definition duplicated_timeseries : str :=
  lit "Duplicated timeseries in CollectorRegistry".

Definition register (name : str) : M unit :=
  fun w =>
    if decide (name ∈ registered w) then
      (w, Raise (ValueError duplicated_timeseries))
    else (set_registered (registered w ++ [name]) w, Ok tt).

Definition LABELNAMES : list str :=
  [lit "service_name"; lit "status_code"; lit "status_group";
   lit "endpoint"; lit "method"; lit "uid"].

Definition opt_val (o : option str) : Val :=
  match o with
  | Some s => VStr s
  | None => VNone
  end.

(** The [labels] dictionary of the closure of [http_requests_total]. *)
Definition http_requests_total_labels (service_name : str)
    (info : ResponseInfo) : list (str * Val) :=
  let uid := headers_get (headers info) (lit "uid") in
  [(lit "service_name", VStr service_name);
   (lit "status_code", VInt (status_code info));
   (lit "status_group", VStr (status_group info));
   (lit "endpoint", VStr (endpoint info));
   (lit "method", VStr (info_method info));
   (lit "uid", opt_val uid)].

(** The closure [instrument] of [http_requests_total]. *)
Definition http_requests_total_instrument (service_name : str) : Handler :=
  fun info w =>
    match labels LABELNAMES (http_requests_total_labels service_name info) with
    | Raise e => (w, Raise e)
    | Ok k => (set_own (inc k (own w)) w, Ok tt)
    end.

Definition http_requests_total (service_name : str) : M Handler :=
  do! _ <- register (lit "http_requests_total") in
  ret (http_requests_total_instrument service_name).

(** The [labels] dictionary of the closure of [latency]. *)
Definition latency_labels (service_name : str) (info : ResponseInfo)
    : list (str * Val) :=
  let uid := headers_get (headers info) (lit "uid") in
  [(lit "service_name", VStr service_name);
   (lit "status_code", VInt (status_code info));
   (lit "status_group", VStr (status_group info));
   (lit "endpoint", VStr (endpoint info));
   (lit "method", VStr (info_method info));
   (lit "uid", opt_val uid)].

(** The closure [instrument] of [latency]. *)
Definition latency_instrument (service_name : str) : Handler :=
  fun info w =>
    match labels LABELNAMES (latency_labels service_name info) with
    | Raise e => (w, Raise e)
    | Ok k => (set_own (observe k (exec_time info) (own w)) w, Ok tt)
    end.

Definition latency (service_name : str) : M Handler :=
  do! _ <- register (lit "http_request_duration_seconds") in
  ret (latency_instrument service_name).

Definition METRIC_HANDLERS : list (str -> M Handler) :=
  [http_requests_total; latency].

(** [[m(service_name) for m in METRIC_HANDLERS]] *)
Fixpoint build_handlers (factories : list (str -> M Handler))
    (service_name : str) : M (list Handler) :=
  match factories with
  | [] => ret []
  | m :: rest =>
      do! h <- m service_name in
      do! hs <- build_handlers rest service_name in
      ret (h :: hs)
  end.

(** *** The application object *)

Inductive Middleware : Type :=
| PromMetricsMiddleware (metrics : list Handler)
| UserMiddleware (call : ASGIApp -> ASGIApp).

Record Route : Type := {
  route_method : str;
  route_path : str;
  route_endpoint : ASGIApp
}.

Record App : Type := {
  user_middleware : list Middleware;
  routes : list Route
}.

(** [app.add_middleware]: the new middleware goes to the front of the
    list and so becomes the outermost layer. *)
Definition add_middleware (mw : Middleware) (app : App) : App :=
  {| user_middleware := mw :: user_middleware app; routes := routes app |}.

(** [@app.get(path)]: the route is appended to the router. *)
Definition add_get_route (p : str) (f : ASGIApp) (app : App) : App :=
  {| user_middleware := user_middleware app;
     routes := routes app ++
       [{| route_method := lit "GET"; route_path := p;
           route_endpoint := f |}] |}.

(** [generate_latest(registry)]: what the registry collects, the default
    registry the children of this process, the multiprocess registry the
    merge of all shards of the directory. The text encoding of the
    exposition format is left to the library. *)
Definition collect (registry : Registry) (w : World) : MetricState :=
  match registry with
  | REGISTRY => own w
  | MultiProcessRegistry => merge (own w :: other_shards w)
  end.

(** The closure [metrics] registered at [/metrics]. Of the headers of
    the response only the one the closure sets is kept. *)
Definition metrics_route (registry : Registry) : ASGIApp :=
  fun _ w =>
    (w, Ok {| resp_status_code := 200;
              resp_headers := [(lit "content-type", CONTENT_TYPE_LATEST)];
              body := Exposition (collect registry w) |}).

(** [PrometheusInstrumentator.instrument_app]. The application object is
    mutated in place: the first component of the result is its state
    when the call returns or raises. *)
Definition instrument_app (app : App) (service_name : str) (w : World)
    : App * World * Result unit :=
  match build_handlers METRIC_HANDLERS service_name w with
  | (w1, Raise e) => (app, w1, Raise e)
  | (w1, Ok metrics) =>
      let app1 := add_middleware (PromMetricsMiddleware metrics) app in
      match _get_registry w1 with
      | Raise e => (app1, w1, Raise e)
      | Ok registry =>
          (add_get_route (lit "/metrics") (metrics_route registry) app1,
           w1, Ok tt)
      end
  end.

(** *** Serving a request

    The host framework, reduced to what the claims need: the router
    runs the first route whose path and method are those of the request
    (paths are compared as they are written, without path parameters),
    answers 405 when only the path matches and 404 otherwise; the
    middlewares wrap the router, the first of the list outermost. The
    redirect of the framework on a trailing-slash mismatch is left out:
    the properties below rest on the exact-match branch only. *)

Definition plain_response (code : Z) (text : string) : Response :=
  {| resp_status_code := code; resp_headers := []; body := Raw (lit text) |}.

Definition route_matches (req : Request) (r : Route) : bool :=
  bool_decide (route_path r = path req) &&
  bool_decide (route_method r = method req).

Definition router (rs : list Route) : ASGIApp :=
  fun req =>
    match List.find (route_matches req) rs with
    | Some r => route_endpoint r req
    | None =>
        if existsb (fun r => bool_decide (route_path r = path req)) rs
        then ret (plain_response 405 "Method Not Allowed")
        else ret (plain_response 404 "Not Found")
    end.

Definition middleware_call (mw : Middleware) (inner : ASGIApp) : ASGIApp :=
  match mw with
  | PromMetricsMiddleware metrics => fun req => dispatch metrics req inner
  | UserMiddleware call => call inner
  end.

Definition build_middleware_stack (mws : list Middleware) (inner : ASGIApp)
    : ASGIApp :=
  foldr middleware_call inner mws.

Definition serve (app : App) : ASGIApp :=
  build_middleware_stack (user_middleware app) (router (routes app)).

End Prom.
Export Prom.

(** ** tracing.py *)

Module Tracing.

Abbreviation bytes := (list Byte.byte).

Definition between (lo hi b : N) : bool := ((lo <=? b) && (b <=? hi))%N.

(** The range of the second byte of a three-byte sequence: no overlong
    form after [E0], no surrogate after [ED]. *)
Definition second_of_three (b0 b1 : N) : bool :=
  if (b0 =? 224)%N then between 160 191 b1
  else if (b0 =? 237)%N then between 128 159 b1
  else between 128 191 b1.

(** The range of the second byte of a four-byte sequence: no overlong
    form after [F0], nothing above U+10FFFF after [F4]. *)
Definition second_of_four (b0 b1 : N) : bool :=
  if (b0 =? 240)%N then between 144 191 b1
  else if (b0 =? 244)%N then between 128 143 b1
  else between 128 191 b1.

(** [b.decode()]: strict UTF-8, [None] standing for
    [UnicodeDecodeError]. *)
Fixpoint utf8_decode (bs : bytes) : option str :=
  match bs with
  | [] => Some []
  | c0 :: r0 =>
      let b0 := Byte.to_N c0 in
      if (b0 <? 128)%N then cons b0 <$> utf8_decode r0
      else
        match r0 with
        | [] => None
        | c1 :: r1 =>
            let b1 := Byte.to_N c1 in
            if between 194 223 b0 then
              if between 128 191 b1
              then cons ((b0 - 192) * 64 + (b1 - 128))%N <$> utf8_decode r1
              else None
            else
              match r1 with
              | [] => None
              | c2 :: r2 =>
                  let b2 := Byte.to_N c2 in
                  if between 224 239 b0 then
                    if second_of_three b0 b1 && between 128 191 b2
                    then cons ((b0 - 224) * 4096 + (b1 - 128) * 64
                               + (b2 - 128))%N <$> utf8_decode r2
                    else None
                  else
                    match r2 with
                    | [] => None
                    | c3 :: r3 =>
                        let b3 := Byte.to_N c3 in
                        if between 240 244 b0 && second_of_four b0 b1
                           && between 128 191 b2 && between 128 191 b3
                        then cons ((b0 - 240) * 262144 + (b1 - 128) * 4096
                                   + (b2 - 128) * 64 + (b3 - 128))%N
                               <$> utf8_decode r3
                        else None
                    end
              end
        end
  end.

Definition decode (bs : bytes) : Result str :=
  match utf8_decode bs with
  | Some s => Ok s
  | None => Raise UnicodeDecodeError
  end.

(** The ASGI scope handed to the hook; [scope_headers] is what
    [context.get('headers')] returns, [None] when the key is missing. *)
Record Context : Type := {
  scope_headers : option (list (bytes * bytes))
}.

(** The dict comprehension of [get_headers]: pairs are decoded in
    order, name before value, a later pair replacing an earlier one of
    the same name. *)
Fixpoint decode_pairs (pairs : list (bytes * bytes)) (acc : gmap str str)
    : Result (gmap str str) :=
  match pairs with
  | [] => Ok acc
  | (k, v) :: rest =>
      match decode k with
      | Raise e => Raise e
      | Ok k' =>
          match decode v with
          | Raise e => Raise e
          | Ok v' => decode_pairs rest (<[k' := v']> acc)
          end
      end
  end.

Definition get_headers (context : Context) : Result (gmap str str) :=
  match scope_headers context with
  | None => Raise (TypeError (lit "'NoneType' object is not iterable"))
  | Some headers => decode_pairs headers ∅
  end.

(** A span, as far as the hook uses it: whether it records, and the
    attributes set on it. *)
Record Span : Type := {
  is_recording : bool;
  attributes : gmap str str
}.

Definition set_attribute (key value : str) (span : Span) : Span :=
  {| is_recording := is_recording span;
     attributes := <[key := value]> (attributes span) |}.

(** [value if value else 'not set'] *)
Definition value_or_not_set (value : option str) : str :=
  match value with
  | Some (c :: s) => c :: s
  | Some [] | None => lit "not set"
  end.

(** [for h in headers: span.set_attribute(h, ...)] *)
Fixpoint set_header_attributes (headers : list str)
    (request_headers : gmap str str) (span : Span) : Span :=
  match headers with
  | [] => span
  | h :: rest =>
      let value := request_headers !! h in
      set_header_attributes rest request_headers
        (set_attribute h (value_or_not_set value) span)
  end.

(** [server_request_hook]. The span argument may be [None]; the result
    carries the span after the call. *)
Definition server_request_hook (headers : list str) (span : option Span)
    (context : Context) : option Span * Result unit :=
  match get_headers context with
  | Raise e => (span, Raise e)
  | Ok request_headers =>
      match span with
      | Some sp =>
          if is_recording sp
          then (Some (set_header_attributes headers request_headers sp), Ok tt)
          else (span, Ok tt)
      | None => (span, Ok tt)
      end
  end.

End Tracing.
Export Tracing.

(** ** Concrete inputs *)

Module Examples.

(** Bytes of an ASCII literal. *)
Definition ascii_bytes (s : string) : bytes :=
  List.map byte_of_ascii (list_ascii_of_string s).

(** A process with nothing registered, single-process mode. *)
Definition fresh_world : World :=
  {| environ := ∅; isdir := fun _ => false; wall_clock := 0%float;
     registered := []; own := empty_state; other_shards := [] |}.

(** The same process with the multiprocess variable pointing at a path
    that is not a directory. *)
Definition misconfigured_world : World :=
  {| environ := {[ lit "prometheus_multiproc_dir" := lit "/no/such/dir" ]};
     isdir := fun _ => false; wall_clock := 0%float;
     registered := []; own := empty_state; other_shards := [] |}.

Definition empty_app : App := {| user_middleware := []; routes := [] |}.

Definition scrape : Request :=
  {| method := lit "GET"; path := lit "/metrics"; req_headers := [] |}.

Definition not_found : Response :=
  {| resp_status_code := 404; resp_headers := [];
     body := Raw (lit "Not Found") |}.

Definition get_items : Request :=
  {| method := lit "get"; path := lit "/items"; req_headers := [] |}.

Definition downstream_404 : ASGIApp := fun _ w => (w, Ok not_found).

(** The record [dispatch] builds for [get_items] answered by
    [downstream_404] in [fresh_world]. *)
Definition items_record : ResponseInfo :=
  {| exec_time := PrimFloat.sub 0%float 0%float;
     headers := [];
     status_code := 404;
     status_group := lit "4xx";
     endpoint := lit "/items";
     info_method := lit "GET" |}.

(** The label-tuple of a scrape without [uid] header. *)
Definition scrape_tuple : LabelTuple :=
  [lit "svc"; lit "200"; lit "2xx"; lit "/metrics"; lit "GET"; lit "None"].

(** Three handlers, the second of which raises; the first and the third
    leave a mark in the counter children. *)
Definition mark (name : string) : Handler :=
  fun _ w => (set_own (inc [lit name] (own w)) w, Ok tt).
Definition failing : Handler :=
  fun _ w => (w, Raise (Exception (lit "boom"))).

(** The process after the first handler has left its mark. *)
Definition marked_world : World :=
  set_own (inc [lit "first"] (own fresh_world)) fresh_world.

(** [empty_app] after [instrument_app], in single-process mode and with
    the directory misconfigured. *)
Definition instrumented_app : App :=
  (instrument_app empty_app (lit "svc") fresh_world).1.1.
Definition instrumented_world : World :=
  (instrument_app empty_app (lit "svc") fresh_world).1.2.
Definition half_configured_app : App :=
  (instrument_app empty_app (lit "svc") misconfigured_world).1.1.
Definition half_configured_world : World :=
  (instrument_app empty_app (lit "svc") misconfigured_world).1.2.

(** A recording span with no attribute yet. *)
Definition blank_span : Span := {| is_recording := true; attributes := ∅ |}.

(** A scope whose header [x-id] carries the single byte FF, which is
    not UTF-8. *)
Definition latin1_context : Context :=
  {| scope_headers := Some [(ascii_bytes "x-id", [Byte.xff])] |}.

(** A scope with a well-formed request id and an empty [x-trace]. *)
Definition plain_context : Context :=
  {| scope_headers :=
       Some [(ascii_bytes "x-id", ascii_bytes "42");
             (ascii_bytes "x-trace", [])] |}.

End Examples.

(** ** Requests in sequence *)

Module Sequence.

(** The server handing requests to the application one after another,
    each on the process as the previous one left it, whether it was
    answered or raised. *)
Fixpoint serve_all (app : ASGIApp) (reqs : list Request) (w : World)
    : World :=
  match reqs with
  | [] => w
  | req :: rest => serve_all app rest (app req w).1
  end.

(** The two metrics tell the same number of requests: at every
    label-tuple the counter equals the number of observations of the
    histogram. *)
Definition counts_agree (st : MetricState) : Prop :=
  forall k,
    value_at (counter_values st) k
      = Z.of_nat (length (observations_at (histogram_values st) k)).

End Sequence.
Export Sequence.

(** ** Header pairs *)

Module Pairs.

(** A header pair whose name and value both decode, and one of which
    the name or the value does not. *)
Definition decodable (p : bytes * bytes) : Prop :=
  is_Some (utf8_decode p.1) /\ is_Some (utf8_decode p.2).

Definition undecodable (p : bytes * bytes) : Prop :=
  utf8_decode p.1 = None \/ utf8_decode p.2 = None.

(** Bytes below 128 only. *)
Definition ascii_only (bs : bytes) : Prop :=
  Forall (fun b => (Byte.to_N b < 128)%N) bs.

(** The code points of ASCII bytes. *)
Definition code_points (bs : bytes) : str := List.map Byte.to_N bs.

End Pairs.
Export Pairs.

(** ** More concrete inputs *)

Module MoreExamples.

Import Examples.

(** An application whose only route raises. *)
Definition boom_app : App :=
  {| user_middleware := [];
     routes := [{| route_method := lit "GET"; route_path := lit "/boom";
                   route_endpoint :=
                     fun _ w => (w, Raise (Exception (lit "boom"))) |}] |}.
Definition boom_instrumented : App :=
  (instrument_app boom_app (lit "svc") fresh_world).1.1.
Definition boom_request : Request :=
  {| method := lit "GET"; path := lit "/boom"; req_headers := [] |}.

(** An application whose only route answers 404, and a request for it. *)
Definition items_app : App :=
  {| user_middleware := [];
     routes := [{| route_method := lit "GET"; route_path := lit "/items";
                   route_endpoint := downstream_404 |}] |}.
Definition items_instrumented : App :=
  (instrument_app items_app (lit "svc") fresh_world).1.1.
Definition items_request : Request :=
  {| method := lit "GET"; path := lit "/items"; req_headers := [] |}.

(** The label-tuple of [get_items] answered 404, without [uid]. *)
Definition items_tuple : LabelTuple :=
  [lit "svc"; lit "404"; lit "4xx"; lit "/items"; lit "GET"; lit "None"].

(** The record of [items_record] with three headers, two of them [uid],
    and with a [uid] header spelling [None]. *)
Definition uid_record : ResponseInfo :=
  {| exec_time := exec_time items_record;
     headers := [(lit "x-a", lit "1"); (lit "uid", lit "u1");
                 (lit "uid", lit "u2")];
     status_code := 404; status_group := lit "4xx";
     endpoint := lit "/items"; info_method := lit "GET" |}.
Definition none_record : ResponseInfo :=
  {| exec_time := exec_time items_record;
     headers := [(lit "uid", lit "None")];
     status_code := 404; status_group := lit "4xx";
     endpoint := lit "/items"; info_method := lit "GET" |}.

(** The header pairs and the dictionary of [plain_context]. *)
Definition plain_pairs : list (bytes * bytes) :=
  [(ascii_bytes "x-id", ascii_bytes "42"); (ascii_bytes "x-trace", [])].
Definition plain_headers : gmap str str :=
  <[lit "x-trace" := []]> (<[lit "x-id" := lit "42"]> ∅).

End MoreExamples.

(** Facts on the decimal rendering. *)
Section Decimal.

Lemma digits_fuel_head (fuel : nat) :
  forall (n : Z) (acc : str),
    0 <= n < 2 ^ Z.of_nat (S fuel) ->
    exists d k rest,
      0 <= k /\ 0 <= d <= 9 /\ (0 < n -> 1 <= d) /\
      d * 10 ^ k <= n < (d + 1) * 10 ^ k /\
      digits_fuel (S fuel) n acc = digit_char d :: rest.
Proof.
  assert (Hsmall : forall f n acc, 0 <= n < 10 ->
    exists d k rest,
      0 <= k /\ 0 <= d <= 9 /\ (0 < n -> 1 <= d) /\
      d * 10 ^ k <= n < (d + 1) * 10 ^ k /\
      digits_fuel (S f) n acc = digit_char d :: rest).
  { intros f n acc Hn. exists n, 0, acc. cbn [digits_fuel].
    destruct (Z.ltb_spec n 10); [|lia].
    rewrite Z.mod_small by lia. simpl. repeat split; lia. }
  induction fuel as [|f IH]; intros n acc Hn.
  - apply Hsmall. change (2 ^ Z.of_nat 1) with 2 in Hn. lia.
  - destruct (Z.ltb_spec n 10) as [Hlt|Hge]; [apply Hsmall; lia|].
    assert (Hpow : 2 ^ Z.of_nat (S (S f)) = 2 * 2 ^ Z.of_nat (S f)).
    { rewrite (Nat2Z.inj_succ (S f)), Z.pow_succ_r; lia. }
    assert (Hq : 0 <= n / 10 < 2 ^ Z.of_nat (S f)).
    { split; [apply Z.div_pos; lia|].
      apply Z.div_lt_upper_bound; lia. }
    destruct (IH (n / 10) (digit_char (n mod 10) :: acc) Hq)
      as (d & k & rest & Hk & Hd & Hpos & Hb & Heq).
    exists d, (k + 1), rest.
    assert (Hq1 : 1 <= n / 10) by (apply Z.div_le_lower_bound; lia).
    pose proof (Z.div_mod n 10 ltac:(lia)) as Hdm.
    pose proof (Z.mod_pos_bound n 10 ltac:(lia)) as Hm.
    rewrite Z.pow_add_r, Z.pow_1_r by lia.
    repeat split; try lia; try nia.
    change (digits_fuel (S (S f)) n acc) with
      (if n <? 10 then digit_char (n mod 10) :: acc
       else digits_fuel (S f) (n / 10) (digit_char (n mod 10) :: acc)).
    destruct (Z.ltb_spec n 10); [lia|exact Heq].
Qed.

Lemma digits_head (n : Z) :
  0 <= n ->
  exists d k rest,
    0 <= k /\ 0 <= d <= 9 /\ (0 < n -> 1 <= d) /\
    d * 10 ^ k <= n < (d + 1) * 10 ^ k /\
    digits n = digit_char d :: rest.
Proof.
  intros Hn. unfold digits. apply digits_fuel_head.
  split; [lia|].
  destruct (Z.eq_dec n 0) as [->|Hne]; [reflexivity|].
  rewrite Nat2Z.inj_succ, Z2Nat.id by apply Z.log2_nonneg.
  apply Z.log2_spec. lia.
Qed.

End Decimal.

(** ** The middleware *)

Section Dispatch.

Lemma digits_fuel_nonempty (f : nat) :
  forall (n : Z) (acc : str), digits_fuel (S f) n acc <> [].
Proof.
  induction f as [|f IH]; intros n acc.
  - cbn [digits_fuel]. destruct (n <? 10); discriminate.
  - change (digits_fuel (S (S f)) n acc) with
      (if n <? 10 then digit_char (n mod 10) :: acc
       else digits_fuel (S f) (n / 10) (digit_char (n mod 10) :: acc)).
    destruct (n <? 10); [discriminate | apply IH].
Qed.

(** [str(status_code)[0]] never raises: the rendering of an integer
    is not empty. *)
Lemma make_status_group_total (code : Z) :
  exists sg, make_status_group code = Ok sg.
Proof.
  unfold make_status_group, int_to_str.
  destruct (code <? 0).
  - simpl. eauto.
  - unfold digits.
    destruct (digits_fuel (S (Z.to_nat (Z.log2 code))) code []) eqn:E.
    + exfalso. eapply digits_fuel_nonempty, E.
    + simpl. eauto.
Qed.

(** A negative integer would be grouped under its sign. *)
Lemma make_status_group_negative (code : Z) :
  code < 0 -> make_status_group code = Ok (lit "-xx").
Proof.
  intros H. unfold make_status_group, int_to_str.
  destruct (Z.ltb_spec code 0); [reflexivity | lia].
Qed.

Lemma make_status_group_leading_digit (code : Z) :
  0 <= code ->
  exists d k,
    0 <= k /\ 0 <= d <= 9 /\ (0 < code -> 1 <= d) /\
    d * 10 ^ k <= code < (d + 1) * 10 ^ k /\
    make_status_group code = Ok (digit_char d :: lit "xx").
Proof.
  intros H.
  destruct (digits_head code H) as (d & k & rest & Hk & Hd & Hp & Hb & E).
  exists d, k. repeat split; try lia.
  unfold make_status_group, int_to_str.
  destruct (Z.ltb_spec code 0); [lia|]. rewrite E. reflexivity.
Qed.

Variables (request : Request) (call_next : ASGIApp).
Variables (w0 w1 : World) (response : Response).
Hypothesis Hnext : call_next request w0 = (w1, Ok response).

(** The record [dispatch] builds once [call_next] has returned. *)
Local Abbreviation record sg :=
  {| exec_time := PrimFloat.sub (wall_clock w1) (wall_clock w0);
     headers := req_headers request;
     status_code := resp_status_code response;
     status_group := sg;
     endpoint := path request;
     info_method := upper (method request) |}.

Lemma dispatch_fan_out (metrics : list Handler) (sg : str) :
  make_status_group (resp_status_code response) = Ok sg ->
  dispatch metrics request call_next w0 =
    match run_handlers metrics (record sg) w1 with
    | (w2, Raise e) => (w2, Raise e)
    | (w2, Ok _) => (w2, Ok response)
    end.
Proof.
  intros Hsg. unfold dispatch. rewrite Hnext, Hsg. reflexivity.
Qed.

Lemma run_handlers_app (pre post : list Handler) (info : ResponseInfo)
    (w : World) :
  run_handlers (pre ++ post) info w =
    match run_handlers pre info w with
    | (w', Ok _) => run_handlers post info w'
    | (w', Raise e) => (w', Raise e)
    end.
Proof.
  revert w. induction pre as [|h pre IH]; intros w; [reflexivity|].
  cbn [run_handlers app]. unfold bind.
  destruct (h info w) as [w' [[]|e]]; [apply IH | reflexivity].
Qed.

(** C4. When a metric handler raises while observing the record, the
    middleware does not catch the exception: [dispatch] raises it, the
    state is the one the failing handler left, whatever handlers
    [post] are registered after it (they are not invoked), and no
    response is returned. *)
Theorem dispatch_handler_error_propagates
    (pre post : list Handler) (h : Handler) (sg : str)
    (w2 w3 : World) (e : Exn) :
  make_status_group (resp_status_code response) = Ok sg ->
  run_handlers pre (record sg) w1 = (w2, Ok tt) ->
  h (record sg) w2 = (w3, Raise e) ->
  dispatch (pre ++ h :: post) request call_next w0 = (w3, Raise e).
Proof.
  intros Hsg Hpre Hh.
  rewrite (dispatch_fan_out _ sg Hsg), run_handlers_app, Hpre.
  cbn [run_handlers]. unfold bind. rewrite Hh. reflexivity.
Qed.

(** The leading digit of a number is determined by its bounds: two
    digits that each bracket [n] between consecutive multiples of a
    power of ten are the same digit. *)
Lemma leading_digit_unique (n d k d' k' : Z) :
  0 <= n ->
  0 <= k -> 0 <= d <= 9 -> (0 < n -> 1 <= d) ->
  d * 10 ^ k <= n < (d + 1) * 10 ^ k ->
  0 <= k' -> 0 <= d' <= 9 -> (0 < n -> 1 <= d') ->
  d' * 10 ^ k' <= n < (d' + 1) * 10 ^ k' ->
  d' = d.
Proof.
  intros Hn Hk Hd Hpos Hb Hk' Hd' Hpos' Hb'.
  assert (HP : 0 < 10 ^ k) by (apply Z.pow_pos_nonneg; lia).
  assert (HP' : 0 < 10 ^ k') by (apply Z.pow_pos_nonneg; lia).
  destruct (Z.eq_dec n 0) as [->|Hne]; [nia|].
  specialize (Hpos ltac:(lia)). specialize (Hpos' ltac:(lia)).
  assert (Hstep : forall a b, 0 <= a -> a < b -> 10 * 10 ^ a <= 10 ^ b).
  { intros a b Ha Hab. rewrite <- Z.pow_succ_r by exact Ha.
    apply Z.pow_le_mono_r; lia. }
  destruct (Z.lt_trichotomy k k') as [Hlt|[Heq|Hgt]].
  - pose proof (Hstep k k' Hk Hlt). nia.
  - subst k'. nia.
  - pose proof (Hstep k' k Hk' Hgt). nia.
Qed.

(** C5. The status group of the record fanned out to the handlers is
    the leading decimal digit of the status code of the response
    followed by [xx]. The digit [d] is the one with
    [d * 10^k <= status_code < (d + 1) * 10^k] for some [k], which
    these bounds determine; the group is spelled out by its code
    points, 48 being the character 0 and 120 the character x, and the
    record handed to the handlers is written out in full. *)
Theorem dispatch_status_group_leading_digit (metrics : list Handler) :
  0 <= resp_status_code response ->
  exists d k,
    0 <= k /\ 0 <= d <= 9 /\
    (0 < resp_status_code response -> 1 <= d) /\
    d * 10 ^ k <= resp_status_code response < (d + 1) * 10 ^ k /\
    (forall d' k',
       0 <= k' -> 0 <= d' <= 9 ->
       (0 < resp_status_code response -> 1 <= d') ->
       d' * 10 ^ k' <= resp_status_code response < (d' + 1) * 10 ^ k' ->
       d' = d) /\
    dispatch metrics request call_next w0 =
      match
        run_handlers metrics
          {| exec_time := PrimFloat.sub (wall_clock w1) (wall_clock w0);
             headers := req_headers request;
             status_code := resp_status_code response;
             status_group := [Z.to_N (48 + d); 120%N; 120%N];
             endpoint := path request;
             info_method := upper (method request) |} w1
      with
      | (w2, Raise e) => (w2, Raise e)
      | (w2, Ok _) => (w2, Ok response)
      end.
Proof.
  intros Hcode.
  destruct (make_status_group_leading_digit _ Hcode)
    as (d & k & Hk & Hd & Hp & Hb & Hsg).
  exists d, k.
  split; [exact Hk|]. split; [exact Hd|]. split; [exact Hp|].
  split; [exact Hb|]. split.
  - intros d' k' Hk' Hd' Hp' Hb'.
    exact (leading_digit_unique _ d k d' k' Hcode Hk Hd Hp Hb Hk' Hd' Hp' Hb').
  - apply (dispatch_fan_out metrics _ Hsg).
Qed.

(** C6. When the downstream handler returns a response, building the
    record and fanning it out never replaces it: [dispatch] returns
    that very response as soon as the handlers return, any response
    it returns is that one, and with the two handlers of the
    instrumentator it always returns it. *)
Theorem dispatch_returns_response_unchanged (metrics : list Handler)
    (service_name : str) :
  exists sg,
    make_status_group (resp_status_code response) = Ok sg /\
    (forall w2, run_handlers metrics (record sg) w1 = (w2, Ok tt) ->
       dispatch metrics request call_next w0 = (w2, Ok response)) /\
    (forall w2 r, dispatch metrics request call_next w0 = (w2, Ok r) ->
       r = response) /\
    (exists w2,
       dispatch [http_requests_total_instrument service_name;
                 latency_instrument service_name]
         request call_next w0 = (w2, Ok response)).
Proof.
  destruct (make_status_group_total (resp_status_code response))
    as [sg Hsg].
  exists sg. split; [exact Hsg|]. split; [|split].
  - intros w2 Hrun. rewrite (dispatch_fan_out _ sg Hsg), Hrun.
    reflexivity.
  - intros w2 r. rewrite (dispatch_fan_out _ sg Hsg).
    destruct (run_handlers metrics (record sg) w1) as [w [[]|e]];
      intros [= _ Hr]; congruence.
  - rewrite (dispatch_fan_out _ sg Hsg).
    cbn [run_handlers]. unfold bind, ret.
    unfold http_requests_total_instrument, latency_instrument, labels.
    cbn [http_requests_total_labels latency_labels fmap list_fmap fst].
    destruct (decide _) as [_|Hn]; [eauto|].
    exfalso. apply Hn. reflexivity.
Qed.

End Dispatch.

(** ** The metric handlers *)

Section Handlers.

Variables (service_name : str) (info : ResponseInfo).

(** The label-tuple of a record: the six label values in the declared
    order, each rendered by [str()]. *)
Local Abbreviation tuple_of uid :=
  [service_name; int_to_str (status_code info); status_group info;
   endpoint info; info_method info; to_str (opt_val uid)].

Lemma labels_declared (kwargs : list (str * Val)) :
  kwargs.*1 = LABELNAMES ->
  labels LABELNAMES kwargs =
    Ok (List.map (fun l => to_str (default VNone (kw_get kwargs l)))
          LABELNAMES).
Proof.
  intros Hk. unfold labels. rewrite Hk.
  destruct (decide _) as [_|Hn]; [reflexivity|].
  exfalso. apply Hn. reflexivity.
Qed.

Lemma http_requests_total_key :
  labels LABELNAMES (http_requests_total_labels service_name info) =
    Ok (tuple_of (headers_get (headers info) (lit "uid"))).
Proof. rewrite labels_declared; reflexivity. Qed.

Lemma latency_key :
  labels LABELNAMES (latency_labels service_name info) =
    Ok (tuple_of (headers_get (headers info) (lit "uid"))).
Proof. rewrite labels_declared; reflexivity. Qed.

Lemma http_requests_total_instrument_eq (w : World) :
  http_requests_total_instrument service_name info w =
    (set_own
       (inc (tuple_of (headers_get (headers info) (lit "uid"))) (own w))
       w, Ok tt).
Proof.
  unfold http_requests_total_instrument.
  rewrite http_requests_total_key. reflexivity.
Qed.

Lemma latency_instrument_eq (w : World) :
  latency_instrument service_name info w =
    (set_own
       (observe (tuple_of (headers_get (headers info) (lit "uid")))
          (exec_time info) (own w))
       w, Ok tt).
Proof.
  unfold latency_instrument. rewrite latency_key. reflexivity.
Qed.

Lemma value_at_inc (k k' : LabelTuple) (st : MetricState) :
  value_at (counter_values (inc k st)) k' =
    if decide (k = k') then value_at (counter_values st) k + 1
    else value_at (counter_values st) k'.
Proof.
  unfold value_at, inc. cbn [counter_values].
  rewrite lookup_insert. destruct (decide (k = k')); reflexivity.
Qed.

Lemma observations_at_observe (k k' : LabelTuple) (x : float)
    (st : MetricState) :
  observations_at (histogram_values (observe k x st)) k' =
    if decide (k = k')
    then observations_at (histogram_values st) k ++ [x]
    else observations_at (histogram_values st) k'.
Proof.
  unfold observations_at, observe. cbn [histogram_values].
  rewrite lookup_insert. destruct (decide (k = k')); reflexivity.
Qed.

(** C7. A record whose request carries no [uid] header is still
    observed by both handlers: the [uid] entry of the label dictionary
    is present and holds [None], neither handler raises, the counter
    child at the label-tuple whose last value is the rendering of
    [None] goes up by one and the histogram child at the same tuple
    receives the execution time. *)
Theorem missing_uid_is_observed (w : World) :
  headers_get (headers info) (lit "uid") = None ->
  let k := [service_name; int_to_str (status_code info);
            status_group info; endpoint info; info_method info;
            lit "None"] in
  kw_get (http_requests_total_labels service_name info) (lit "uid")
    = Some VNone /\
  kw_get (latency_labels service_name info) (lit "uid") = Some VNone /\
  (exists w',
     http_requests_total_instrument service_name info w = (w', Ok tt) /\
     counter_values (own w') !! k
       = Some (value_at (counter_values (own w)) k + 1)) /\
  (exists w',
     latency_instrument service_name info w = (w', Ok tt) /\
     histogram_values (own w') !! k
       = Some (observations_at (histogram_values (own w)) k
                 ++ [exec_time info])).
Proof.
  intros Huid k.
  split; [|split; [|split]].
  - unfold http_requests_total_labels. rewrite Huid. reflexivity.
  - unfold latency_labels. rewrite Huid. reflexivity.
  - eexists. split; [apply http_requests_total_instrument_eq|].
    rewrite Huid. cbn [own set_own inc counter_values opt_val to_str].
    apply lookup_insert_eq.
  - eexists. split; [apply latency_instrument_eq|].
    rewrite Huid.
    cbn [own set_own observe histogram_values opt_val to_str].
    apply lookup_insert_eq.
Qed.

(** C8. The counter handler and the histogram handler compute the same
    label dictionary, over the same six declared label names, and
    resolve it to the same label-tuple. *)
Theorem handlers_share_label_tuple :
  http_requests_total_labels service_name info
    = latency_labels service_name info /\
  (http_requests_total_labels service_name info).*1 = LABELNAMES /\
  exists k,
    labels LABELNAMES (http_requests_total_labels service_name info)
      = Ok k /\
    labels LABELNAMES (latency_labels service_name info) = Ok k /\
    k = [service_name; int_to_str (status_code info); status_group info;
         endpoint info; info_method info;
         to_str (opt_val (headers_get (headers info) (lit "uid")))].
Proof.
  split; [reflexivity|]. split; [reflexivity|].
  eexists. split; [apply http_requests_total_key|].
  split; [apply latency_key | reflexivity].
Qed.

End Handlers.

(** ** The instrumentator *)

Section Instrumentator.

Variables (app : App) (service_name : str).

Local Abbreviation reference_handlers :=
  [http_requests_total_instrument service_name;
   latency_instrument service_name].

Local Abbreviation metric_names :=
  [lit "http_requests_total"; lit "http_request_duration_seconds"].

(** Building the handlers either hits a name the default registry
    already holds, or registers both names and yields both closures;
    the environment and the file system are not touched. *)
Lemma build_handlers_cases (w : World) :
  (exists w1,
     build_handlers METRIC_HANDLERS service_name w
       = (w1, Raise (ValueError duplicated_timeseries)) /\
     (lit "http_requests_total" ∈ registered w \/
      lit "http_request_duration_seconds" ∈ registered w)) \/
  (exists w1,
     build_handlers METRIC_HANDLERS service_name w
       = (w1, Ok reference_handlers) /\
     environ w1 = environ w /\ isdir w1 = isdir w /\
     registered w1 = registered w ++ metric_names /\
     own w1 = own w).
Proof.
  unfold METRIC_HANDLERS. cbn [build_handlers].
  unfold http_requests_total, latency, bind, ret, register.
  destruct (decide (lit "http_requests_total" ∈ registered w));
    [left; eauto|].
  cbn [registered set_registered].
  destruct (decide (lit "http_request_duration_seconds"
                      ∈ registered w ++ [lit "http_requests_total"]))
    as [Hin|Hnin].
  - left. eexists. split; [reflexivity|]. right.
    apply elem_of_app in Hin as [Hin|Hin]; [exact Hin|].
    apply list_elem_of_singleton in Hin. vm_compute in Hin. discriminate.
  - right. eexists. split; [reflexivity|].
    cbn [environ isdir registered own set_registered].
    rewrite <- app_assoc. auto.
Qed.

Lemma messages_differ : duplicated_timeseries <> invalid_directory.
Proof. intros H. vm_compute in H. discriminate. Qed.

Lemma instrument_app_ok (w : World) (app' : App) (w' : World) :
  instrument_app app service_name w = (app', w', Ok tt) ->
  exists registry,
    _get_registry w = Ok registry /\
    app' = add_get_route (lit "/metrics") (metrics_route registry)
             (add_middleware (PromMetricsMiddleware reference_handlers)
                app) /\
    registered w' = registered w ++ metric_names /\
    own w' = own w.
Proof.
  unfold instrument_app.
  destruct (build_handlers_cases w)
    as [(w1 & -> & _)|(w1 & -> & Henv & Hdir & Hreg & Hown)];
    [discriminate|].
  assert (Hr : _get_registry w1 = _get_registry w).
  { unfold _get_registry. rewrite Henv, Hdir. reflexivity. }
  rewrite Hr. destruct (_get_registry w) as [registry|e];
    [|discriminate].
  intros [= <- <-]. eauto.
Qed.

(** Whatever the path, a request the inner application answers is
    counted once, at the label-tuple of its record. *)
Lemma served_request_is_counted (registry : Registry) (req : Request)
    (wa wb : World) (resp : Response) :
  let app' := add_get_route (lit "/metrics") (metrics_route registry)
                (add_middleware (PromMetricsMiddleware reference_handlers)
                   app) in
  build_middleware_stack (user_middleware app) (router (routes app'))
    req wa = (wb, Ok resp) ->
  exists sg wc,
    make_status_group (resp_status_code resp) = Ok sg /\
    serve app' req wa = (wc, Ok resp) /\
    let k := [service_name; int_to_str (resp_status_code resp); sg;
              path req; upper (method req);
              to_str (opt_val (headers_get (req_headers req)
                                 (lit "uid")))] in
    value_at (counter_values (own wc)) k
      = value_at (counter_values (own wb)) k + 1.
Proof.
  intros app' Hinner.
  destruct (make_status_group_total (resp_status_code resp)) as [sg Hsg].
  exists sg. unfold serve.
  change (user_middleware app')
    with (PromMetricsMiddleware reference_handlers :: user_middleware app).
  cbn [build_middleware_stack foldr middleware_call].
  fold (build_middleware_stack (user_middleware app)
          (router (routes app'))).
  rewrite (dispatch_fan_out _ _ _ _ _ Hinner _ sg Hsg).
  cbn [run_handlers]. unfold bind, ret.
  rewrite http_requests_total_instrument_eq, latency_instrument_eq.
  eexists. split; [exact Hsg|]. split; [reflexivity|].
  cbn [own set_own observe counter_values headers status_code
       status_group endpoint info_method].
  rewrite value_at_inc. destruct (decide _) as [_|Hn]; [reflexivity|].
  exfalso. apply Hn. reflexivity.
Qed.

Lemma find_app_last (req : Request) (rs : list Route) (r : Route) :
  List.find (route_matches req) rs = None ->
  route_matches req r = true ->
  List.find (route_matches req) (rs ++ [r]) = Some r.
Proof.
  intros Hnone Hr. induction rs as [|r0 rs IH]; cbn in *.
  - rewrite Hr. reflexivity.
  - destruct (route_matches req r0); [discriminate | auto].
Qed.

(** C1. A scrape request is not excluded from the fan-out. On an
    application instrumented by [instrument_app], with no other
    middleware and no earlier route answering [GET /metrics], every
    such request is served by the scrape route with status 200 and
    increments [http_requests_total] by exactly one at the
    label-tuple whose endpoint is [/metrics]. *)
Theorem scrape_request_is_counted (w w' wa : World) (app' : App)
    (req : Request) :
  instrument_app app service_name w = (app', w', Ok tt) ->
  user_middleware app = [] ->
  List.find (route_matches req) (routes app) = None ->
  path req = lit "/metrics" ->
  method req = lit "GET" ->
  exists resp wc,
    serve app' req wa = (wc, Ok resp) /\
    resp_status_code resp = 200 /\
    let k := [service_name; lit "200"; lit "2xx"; lit "/metrics";
              lit "GET";
              to_str (opt_val (headers_get (req_headers req)
                                 (lit "uid")))] in
    value_at (counter_values (own wc)) k
      = value_at (counter_values (own wa)) k + 1.
Proof.
  intros Hinst Hmw Hfind Hpath Hmeth.
  destruct (instrument_app_ok _ _ _ Hinst) as (registry & _ & -> & _ & _).
  set (resp := {| resp_status_code := 200;
                  resp_headers :=
                    [(lit "content-type", CONTENT_TYPE_LATEST)];
                  body := Exposition (collect registry wa) |}).
  assert (Hinner :
    build_middleware_stack (user_middleware app)
      (router (routes (add_get_route (lit "/metrics")
                         (metrics_route registry)
                         (add_middleware
                            (PromMetricsMiddleware reference_handlers)
                            app))))
      req wa = (wa, Ok resp)).
  { rewrite Hmw. cbn [build_middleware_stack foldr]. unfold router.
    cbn [routes add_get_route add_middleware].
    erewrite find_app_last; [reflexivity | exact Hfind |].
    unfold route_matches. cbn [route_path route_method].
    rewrite Hpath, Hmeth, !bool_decide_eq_true_2 by reflexivity.
    reflexivity. }
  destruct (served_request_is_counted registry req wa wa resp Hinner)
    as (sg & wc & Hsg & Hserve & Hk).
  exists resp, wc. split; [exact Hserve|]. split; [reflexivity|].
  cbn [resp_status_code resp] in Hsg, Hk.
  vm_compute in Hsg. injection Hsg as <-.
  rewrite Hpath, Hmeth in Hk. exact Hk.
Qed.

(** C2. With the multiprocess directory variable set to a path that
    is not a directory, [instrument_app] raises [ValueError] (the
    invalid-directory error, unless the metric names were already
    registered, which raises first) without registering any route;
    and the scrape route, wherever it is registered, answers 200 and
    never raises. The misconfiguration therefore shows at setup and
    never as a failure of the route. *)
Theorem invalid_directory_raises_at_setup (w : World) (pmd : str) :
  environ w !! lit "prometheus_multiproc_dir" = Some pmd ->
  isdir w pmd = false ->
  (exists app' w' msg,
     instrument_app app service_name w
       = (app', w', Raise (ValueError msg)) /\
     routes app' = routes app /\
     (lit "http_requests_total" ∉ registered w ->
      lit "http_request_duration_seconds" ∉ registered w ->
      msg = invalid_directory)) /\
  (forall registry req w1,
     exists resp,
       metrics_route registry req w1 = (w1, Ok resp) /\
       resp_status_code resp = 200).
Proof.
  intros Henv Hdir. split; [|intros; eexists; split; reflexivity].
  unfold instrument_app.
  destruct (build_handlers_cases w)
    as [(w1 & -> & Hdup)|(w1 & -> & He & Hd & _ & _)].
  - exists app, w1, duplicated_timeseries.
    split; [reflexivity|]. split; [reflexivity|].
    intros H1 H2. destruct Hdup; contradiction.
  - unfold _get_registry. rewrite He, Hd, Henv, Hdir.
    eexists _, w1, invalid_directory.
    split; [reflexivity|]. split; reflexivity.
Qed.

(** C3. When [instrument_app] raises the invalid-directory error, no
    route has been registered, but the application is not as it was:
    the telemetry middleware is already installed at the front of the
    middleware list and both metric names are registered, since the
    registry is resolved after [add_middleware]. *)
Theorem setup_error_keeps_middleware (w w' : World) (app' : App) :
  instrument_app app service_name w
    = (app', w', Raise (ValueError invalid_directory)) ->
  routes app' = routes app /\
  user_middleware app'
    = PromMetricsMiddleware reference_handlers :: user_middleware app /\
  registered w' = registered w ++ metric_names.
Proof.
  unfold instrument_app.
  destruct (build_handlers_cases w)
    as [(w1 & -> & _)|(w1 & -> & _ & _ & Hreg & _)].
  - intros H.
    assert (Hm : duplicated_timeseries = invalid_directory) by congruence.
    destruct (messages_differ Hm).
  - destruct (_get_registry w1) as [registry|e]; [discriminate|].
    intros [= <- <- _]. split; [reflexivity|]. split; [reflexivity|].
    exact Hreg.
Qed.

End Instrumentator.

(** ** The multiprocess merge *)

Section Merge.

Implicit Types (s : gmap LabelTuple Z) (shards : list (gmap LabelTuple Z)).
Implicit Types (k : LabelTuple).

Lemma lookup_merge_counters_cons s shards k :
  merge_counters (s :: shards) !! k =
    union_with (fun a b => Some (a + b))
      (s !! k) (merge_counters shards !! k).
Proof. unfold merge_counters. cbn [foldr]. apply lookup_union_with. Qed.

Lemma value_at_merge_counters shards k :
  value_at (merge_counters shards) k = shard_sum shards k.
Proof.
  induction shards as [|s shards IH].
  - unfold value_at, merge_counters. cbn [foldr].
    rewrite lookup_empty. reflexivity.
  - unfold shard_sum. cbn [fmap list_fmap foldr].
    fold (shard_sum shards k). rewrite <- IH.
    unfold value_at at 1. rewrite lookup_merge_counters_cons.
    unfold value_at.
    destruct (s !! k), (merge_counters shards !! k); cbn; lia.
Qed.

Lemma merge_counters_is_Some shards k :
  is_Some (merge_counters shards !! k) <->
  Exists (fun s => is_Some (s !! k)) shards.
Proof.
  induction shards as [|s shards IH].
  - unfold merge_counters. cbn [foldr]. rewrite lookup_empty.
    split; [intros [? [=]] | intros H; inversion H].
  - rewrite lookup_merge_counters_cons, Exists_cons, <- IH.
    destruct (s !! k), (merge_counters shards !! k); cbn;
      split; eauto; intros [[? [=]]|[? [=]]].
Qed.

(** C9. The merge is the label-wise sum over the shards: the merged
    value of a label-tuple is the sum of its values in the shards, a
    shard without it counting 0; a label-tuple is in the merge exactly
    when some shard has it; shards holding 3 and 5 at one label-tuple
    merge to 8 there while a third shard with another label-tuple
    keeps its own value as its own series; and this merge is what the
    multiprocess registry collects at scrape time. *)
Theorem merge_is_labelwise_sum :
  (forall shards k,
     value_at (merge_counters shards) k = shard_sum shards k) /\
  (forall shards k,
     is_Some (merge_counters shards !! k) <->
     Exists (fun s => is_Some (s !! k)) shards) /\
  (forall k k' (v : Z),
     k <> k' ->
     merge_counters [ {[k := 3]}; {[k := 5]}; {[k' := v]} ] !! k
       = Some 8 /\
     merge_counters [ {[k := 3]}; {[k := 5]}; {[k' := v]} ] !! k'
       = Some v) /\
  (forall w k,
     value_at (counter_values (collect MultiProcessRegistry w)) k
       = shard_sum (counter_values <$> (own w :: other_shards w)) k).
Proof.
  split; [exact value_at_merge_counters|].
  split; [exact merge_counters_is_Some|].
  split.
  - intros k k' v Hne.
    rewrite !lookup_merge_counters_cons.
    unfold merge_counters. cbn [foldr].
    rewrite lookup_empty, !lookup_singleton_eq.
    rewrite !lookup_singleton_ne by congruence.
    split; reflexivity.
  - intros w k. cbn [collect merge counter_values].
    apply value_at_merge_counters.
Qed.

End Merge.

(** ** The tracing request hook *)

Section RequestHook.

Lemma set_header_attributes_recording (hs : list str)
    (rh : gmap str str) :
  forall sp,
    is_recording (set_header_attributes hs rh sp) = is_recording sp.
Proof.
  induction hs as [|h hs IH]; intros sp; [reflexivity|].
  cbn [set_header_attributes]. rewrite IH. reflexivity.
Qed.

(** After the loop an allowlisted name holds the value chosen for it,
    any other name what it held before. *)
Lemma set_header_attributes_lookup (hs : list str) (rh : gmap str str)
    (h : str) :
  forall sp,
    attributes (set_header_attributes hs rh sp) !! h =
      if decide (h ∈ hs) then Some (value_or_not_set (rh !! h))
      else attributes sp !! h.
Proof.
  induction hs as [|h0 hs IH]; intros sp.
  - cbn [set_header_attributes].
    destruct (decide (h ∈ [])) as [Hin|_]; [|reflexivity].
    inversion Hin.
  - cbn [set_header_attributes]. rewrite IH.
    cbn [set_attribute attributes].
    destruct (decide (h ∈ hs)) as [Hin|Hnin].
    + rewrite decide_True by (right; exact Hin). reflexivity.
    + destruct (decide (h = h0)) as [->|Hne].
      * rewrite lookup_insert_eq, decide_True by left. reflexivity.
      * rewrite lookup_insert_ne by congruence.
        rewrite decide_False; [reflexivity|].
        intros Hin. apply elem_of_cons in Hin as [?|?]; contradiction.
Qed.

Lemma decode_pairs_total (pairs : list (bytes * bytes)) :
  Forall (fun p => is_Some (utf8_decode p.1) /\ is_Some (utf8_decode p.2))
    pairs ->
  forall acc, exists rh, decode_pairs pairs acc = Ok rh.
Proof.
  induction 1 as [|[k v] pairs [[k' Hk] [v' Hv]] _ IH]; intros acc.
  - eexists. reflexivity.
  - cbn [decode_pairs]. unfold decode. cbn [fst snd] in Hk, Hv.
    rewrite Hk, Hv. apply IH.
Qed.

(** What the dictionary of [get_headers] holds: a value found under a
    name is the decoding of a pair of that name (or was there before),
    and every pair leaves its name in the dictionary. *)
Lemma decode_pairs_lookup (pairs : list (bytes * bytes)) :
  forall acc rh,
    decode_pairs pairs acc = Ok rh ->
    (forall name value,
       rh !! name = Some value ->
       acc !! name = Some value \/
       exists k v, (k, v) ∈ pairs /\
                   utf8_decode k = Some name /\
                   utf8_decode v = Some value) /\
    (forall name, is_Some (acc !! name) -> is_Some (rh !! name)) /\
    (forall k v name,
       (k, v) ∈ pairs -> utf8_decode k = Some name ->
       is_Some (rh !! name)).
Proof.
  induction pairs as [|[k0 v0] pairs IH]; intros acc rh.
  - cbn [decode_pairs]. intros [= <-].
    split; [auto|]. split; [auto|].
    intros k v name Hin. inversion Hin.
  - cbn [decode_pairs]. unfold decode.
    destruct (utf8_decode k0) as [k0'|] eqn:Hk0; [|discriminate].
    destruct (utf8_decode v0) as [v0'|] eqn:Hv0; [|discriminate].
    intros Hrest. destruct (IH _ _ Hrest) as (H1 & H2 & H3).
    split; [|split].
    + intros name value Hl. destruct (H1 _ _ Hl) as [Hacc|(k & v & Hin & ?)].
      * destruct (decide (k0' = name)) as [<-|Hne].
        -- rewrite lookup_insert_eq in Hacc. injection Hacc as <-.
           right. exists k0, v0. split; [left|]; auto.
        -- rewrite lookup_insert_ne in Hacc by exact Hne. auto.
      * right. exists k, v. split; [right; exact Hin | assumption].
    + intros name Hs. apply H2.
      destruct (decide (k0' = name)) as [<-|Hne].
      * rewrite lookup_insert_eq. eauto.
      * rewrite lookup_insert_ne by exact Hne. exact Hs.
    + intros k v name Hin Hk.
      apply elem_of_cons in Hin as [[= -> ->]|Hin].
      * apply H2. rewrite Hk0 in Hk. injection Hk as ->.
        rewrite lookup_insert_eq. eauto.
      * eapply H3; eassumption.
Qed.

(** C10. For a request whose header names and values all decode as
    UTF-8, the hook returns normally and leaves on a recording span
    one attribute per allowlisted name: the value the decoded header
    dictionary holds under exactly that name when that value is not
    empty, and the literal [not set] when the dictionary has no entry
    under that name or an empty one. A name is in the dictionary
    exactly when some header pair decodes to it, and the value found
    there is the decoding of such a pair. *)
Theorem request_hook_sets_allowlisted_headers
    (allowlist : list str) (sp : Span) (context : Context)
    (pairs : list (bytes * bytes)) :
  scope_headers context = Some pairs ->
  Forall (fun p => is_Some (utf8_decode p.1) /\ is_Some (utf8_decode p.2))
    pairs ->
  is_recording sp = true ->
  exists request_headers sp',
    get_headers context = Ok request_headers /\
    server_request_hook allowlist (Some sp) context = (Some sp', Ok tt) /\
    (forall h, h ∈ allowlist ->
       (forall v, request_headers !! h = Some v -> v <> [] ->
          attributes sp' !! h = Some v) /\
       (request_headers !! h = None \/ request_headers !! h = Some [] ->
          attributes sp' !! h = Some (lit "not set"))) /\
    (forall name,
       is_Some (request_headers !! name) <->
       exists k v, (k, v) ∈ pairs /\ utf8_decode k = Some name) /\
    (forall name value,
       request_headers !! name = Some value ->
       exists k v, (k, v) ∈ pairs /\ utf8_decode k = Some name /\
                   utf8_decode v = Some value).
Proof.
  intros Hctx Hdec Hrec.
  destruct (decode_pairs_total pairs Hdec ∅) as [rh Hrh].
  assert (Hget : get_headers context = Ok rh).
  { unfold get_headers. rewrite Hctx. exact Hrh. }
  destruct (decode_pairs_lookup _ _ _ Hrh) as (H1 & _ & H3).
  exists rh, (set_header_attributes allowlist rh sp).
  split; [exact Hget|]. split; [|split; [|split]].
  - unfold server_request_hook. rewrite Hget, Hrec. reflexivity.
  - intros h Hin. rewrite set_header_attributes_lookup.
    rewrite decide_True by exact Hin. split.
    + intros v -> Hv. destruct v; [contradiction | reflexivity].
    + intros [->| ->]; reflexivity.
  - intros name. split.
    + intros [value Hl]. destruct (H1 _ _ Hl) as [Hacc|(k & v & ? & ? & _)].
      * rewrite lookup_empty in Hacc. discriminate.
      * eauto.
    + intros (k & v & Hin & Hk). eapply H3; eassumption.
  - intros name value Hl. destruct (H1 _ _ Hl) as [Hacc|H]; [|exact H].
    rewrite lookup_empty in Hacc. discriminate.
Qed.

End RequestHook.

(** ** The properties at concrete inputs *)

Import Examples.

Ltac differ :=
  let H := fresh in intros H; vm_compute in H; discriminate H.

(** A scrape of a freshly instrumented application is counted: the
    series of [http_requests_total] with endpoint [/metrics] goes from
    0 to 1. *)
Lemma scrape_increments_metrics_series :
  instrument_app empty_app (lit "svc") fresh_world
    = (instrumented_app, instrumented_world, Ok tt) /\
  nth 3 scrape_tuple [] = lit "/metrics" /\
  value_at (counter_values (own instrumented_world)) scrape_tuple = 0 /\
  exists w resp,
    serve instrumented_app scrape instrumented_world = (w, Ok resp) /\
    value_at (counter_values (own w)) scrape_tuple = 1.
Proof.
  split; [reflexivity|]. split; [reflexivity|]. split; [reflexivity|].
  eexists _, _. split; reflexivity.
Qed.

Lemma scrape_request_is_counted_witness :
  instrument_app empty_app (lit "svc") fresh_world
    = (instrumented_app, instrumented_world, Ok tt) /\
  user_middleware empty_app = [] /\
  List.find (route_matches scrape) (routes empty_app) = None /\
  path scrape = lit "/metrics" /\
  method scrape = lit "GET" /\
  exists resp wc,
    serve instrumented_app scrape instrumented_world = (wc, Ok resp) /\
    resp_status_code resp = 200 /\
    value_at (counter_values (own wc)) scrape_tuple
      = value_at (counter_values (own instrumented_world)) scrape_tuple + 1.
Proof.
  repeat (split; [reflexivity|]).
  exact (scrape_request_is_counted empty_app (lit "svc") fresh_world
           instrumented_world instrumented_world instrumented_app scrape
           eq_refl eq_refl eq_refl eq_refl eq_refl).
Defined.

Lemma invalid_directory_raises_at_setup_witness :
  environ misconfigured_world !! lit "prometheus_multiproc_dir"
    = Some (lit "/no/such/dir") /\
  isdir misconfigured_world (lit "/no/such/dir") = false /\
  exists app' w' msg,
    instrument_app empty_app (lit "svc") misconfigured_world
      = (app', w', Raise (ValueError msg)) /\
    routes app' = routes empty_app /\
    (lit "http_requests_total" ∉ registered misconfigured_world ->
     lit "http_request_duration_seconds" ∉ registered misconfigured_world ->
     msg = invalid_directory).
Proof.
  split; [reflexivity|]. split; [reflexivity|].
  exact (proj1 (invalid_directory_raises_at_setup empty_app (lit "svc")
                  misconfigured_world (lit "/no/such/dir")
                  eq_refl eq_refl)).
Defined.

(** The application after the failed setup is not the application
    before it: the middleware is installed. *)
Lemma setup_error_changes_app :
  instrument_app empty_app (lit "svc") misconfigured_world
    = (half_configured_app, half_configured_world,
       Raise (ValueError invalid_directory)) /\
  user_middleware empty_app = [] /\
  length (user_middleware half_configured_app) = 1%nat /\
  half_configured_app <> empty_app.
Proof.
  split; [reflexivity|]. split; [reflexivity|]. split; [reflexivity|].
  intros H. apply (f_equal (fun a => length (user_middleware a))) in H.
  discriminate H.
Qed.

Lemma setup_error_keeps_middleware_witness :
  instrument_app empty_app (lit "svc") misconfigured_world
    = (half_configured_app, half_configured_world,
       Raise (ValueError invalid_directory)) /\
  routes half_configured_app = routes empty_app /\
  user_middleware half_configured_app
    = PromMetricsMiddleware
        [http_requests_total_instrument (lit "svc");
         latency_instrument (lit "svc")] :: user_middleware empty_app /\
  registered half_configured_world
    = registered misconfigured_world ++
      [lit "http_requests_total"; lit "http_request_duration_seconds"].
Proof.
  split; [reflexivity|].
  exact (setup_error_keeps_middleware empty_app (lit "svc")
           misconfigured_world half_configured_world half_configured_app
           eq_refl).
Defined.

Lemma dispatch_handler_error_propagates_witness :
  downstream_404 get_items fresh_world = (fresh_world, Ok not_found) /\
  make_status_group (resp_status_code not_found) = Ok (lit "4xx") /\
  run_handlers [mark "first"] items_record fresh_world
    = (marked_world, Ok tt) /\
  failing items_record marked_world
    = (marked_world, Raise (Exception (lit "boom"))) /\
  counter_values (own marked_world) !! [lit "third"] = None /\
  dispatch ([mark "first"] ++ failing :: [mark "third"])
    get_items downstream_404 fresh_world
    = (marked_world, Raise (Exception (lit "boom"))).
Proof.
  repeat (split; [reflexivity|]).
  exact (dispatch_handler_error_propagates get_items downstream_404
           fresh_world fresh_world not_found eq_refl
           [mark "first"] [mark "third"] failing (lit "4xx")
           marked_world marked_world (Exception (lit "boom"))
           eq_refl eq_refl eq_refl).
Defined.

Lemma dispatch_status_group_leading_digit_witness :
  downstream_404 get_items fresh_world = (fresh_world, Ok not_found) /\
  0 <= resp_status_code not_found /\
  exists w,
    dispatch [http_requests_total_instrument (lit "svc")]
      get_items downstream_404 fresh_world = (w, Ok not_found) /\
    counter_values (own w)
      !! [lit "svc"; lit "404"; [52%N; 120%N; 120%N]; lit "/items";
          lit "GET"; lit "None"] = Some 1 /\
    size (counter_values (own w)) = 1%nat.
Proof.
  split; [reflexivity|]. split; [cbn; lia|].
  destruct (dispatch_status_group_leading_digit get_items downstream_404
              fresh_world fresh_world not_found eq_refl
              [http_requests_total_instrument (lit "svc")])
    as (d & k & _ & _ & _ & _ & Huniq & Hdispatch); [cbn; lia|].
  assert (Hd : 4 = d) by (apply (Huniq 4 2); cbn; lia).
  subst d. rewrite Hdispatch.
  eexists. split; [reflexivity|]. split; reflexivity.
Defined.

(** The same at the two codes the specification names. *)
Example status_group_404 : make_status_group 404 = Ok (lit "4xx").
Proof. reflexivity. Qed.

Example status_group_200 : make_status_group 200 = Ok (lit "2xx").
Proof. reflexivity. Qed.

Lemma dispatch_returns_response_unchanged_witness :
  downstream_404 get_items fresh_world = (fresh_world, Ok not_found) /\
  exists sg,
    make_status_group (resp_status_code not_found) = Ok sg /\
    (forall w2,
       run_handlers [mark "first"]
         {| exec_time :=
              PrimFloat.sub (wall_clock fresh_world) (wall_clock fresh_world);
            headers := req_headers get_items;
            status_code := resp_status_code not_found;
            status_group := sg;
            endpoint := path get_items;
            info_method := upper (method get_items) |} fresh_world
         = (w2, Ok tt) ->
       dispatch [mark "first"] get_items downstream_404 fresh_world
         = (w2, Ok not_found)) /\
    (forall w2 r,
       dispatch [mark "first"] get_items downstream_404 fresh_world
         = (w2, Ok r) -> r = not_found) /\
    (exists w2,
       dispatch [http_requests_total_instrument (lit "svc");
                 latency_instrument (lit "svc")]
         get_items downstream_404 fresh_world = (w2, Ok not_found)).
Proof.
  split; [reflexivity|].
  exact (dispatch_returns_response_unchanged get_items downstream_404
           fresh_world fresh_world not_found eq_refl
           [mark "first"] (lit "svc")).
Defined.

Lemma missing_uid_is_observed_witness :
  headers_get (headers items_record) (lit "uid") = None /\
  let k := [lit "svc"; lit "404"; lit "4xx"; lit "/items"; lit "GET";
            lit "None"] in
  kw_get (http_requests_total_labels (lit "svc") items_record) (lit "uid")
    = Some VNone /\
  kw_get (latency_labels (lit "svc") items_record) (lit "uid")
    = Some VNone /\
  (exists w',
     http_requests_total_instrument (lit "svc") items_record fresh_world
       = (w', Ok tt) /\
     counter_values (own w') !! k
       = Some (value_at (counter_values (own fresh_world)) k + 1)) /\
  (exists w',
     latency_instrument (lit "svc") items_record fresh_world = (w', Ok tt) /\
     histogram_values (own w') !! k
       = Some (observations_at (histogram_values (own fresh_world)) k
                 ++ [exec_time items_record])).
Proof.
  split; [reflexivity|].
  exact (missing_uid_is_observed (lit "svc") items_record fresh_world
           eq_refl).
Defined.

Lemma merge_is_labelwise_sum_witness :
  [lit "a"] <> [lit "b"] /\
  merge_counters [ {[ [lit "a"] := 3 ]}; {[ [lit "a"] := 5 ]};
                   {[ [lit "b"] := 7 ]} ] !! [lit "a"] = Some 8 /\
  merge_counters [ {[ [lit "a"] := 3 ]}; {[ [lit "a"] := 5 ]};
                   {[ [lit "b"] := 7 ]} ] !! [lit "b"] = Some 7.
Proof.
  split; [differ|].
  apply (proj1 (proj2 (proj2 merge_is_labelwise_sum))). differ.
Defined.

(** The decoder on the usual samples: one to four bytes per character,
    and the sequences strict UTF-8 refuses. *)
Example utf8_decode_samples :
  utf8_decode (ascii_bytes "uid") = Some (lit "uid") /\
  utf8_decode [Byte.xc3; Byte.xa9] = Some [233%N] /\
  utf8_decode [Byte.xe2; Byte.x82; Byte.xac] = Some [8364%N] /\
  utf8_decode [Byte.xf0; Byte.x9f; Byte.x98; Byte.x80] = Some [128512%N] /\
  utf8_decode [Byte.xc0; Byte.x80] = None /\
  utf8_decode [Byte.xed; Byte.xa0; Byte.x80] = None /\
  utf8_decode [Byte.xf4; Byte.x90; Byte.x80; Byte.x80] = None /\
  utf8_decode [Byte.xe2; Byte.x82] = None /\
  utf8_decode [Byte.xe9] = None.
Proof. repeat split; reflexivity. Qed.

(** A header value that is not UTF-8 makes the hook raise before any
    attribute is set, recording span or not. *)
Lemma request_hook_raises_on_latin1 :
  is_recording blank_span = true /\
  scope_headers latin1_context
    = Some [(ascii_bytes "x-id", [Byte.xff])] /\
  server_request_hook [lit "x-id"] (Some blank_span) latin1_context
    = (Some blank_span, Raise UnicodeDecodeError) /\
  attributes blank_span !! lit "x-id" = None.
Proof. repeat split; reflexivity. Qed.

Lemma request_hook_sets_allowlisted_headers_witness :
  scope_headers plain_context
    = Some [(ascii_bytes "x-id", ascii_bytes "42");
            (ascii_bytes "x-trace", [])] /\
  is_recording blank_span = true /\
  exists sp',
    server_request_hook [lit "x-id"; lit "x-trace"; lit "x-other"]
      (Some blank_span) plain_context = (Some sp', Ok tt) /\
    attributes sp' !! lit "x-id" = Some (lit "42") /\
    attributes sp' !! lit "x-trace" = Some (lit "not set") /\
    attributes sp' !! lit "x-other" = Some (lit "not set").
Proof.
  split; [reflexivity|]. split; [reflexivity|].
  destruct (request_hook_sets_allowlisted_headers
              [lit "x-id"; lit "x-trace"; lit "x-other"]
              blank_span plain_context _ eq_refl)
    as (rh & sp' & Hget & Hhook & Hattr & _).
  - repeat (constructor; [split; eexists; reflexivity|]). constructor.
  - reflexivity.
  - exists sp'. split; [exact Hhook|].
    injection Hget as <-.
    split; [|split].
    + apply (Hattr (lit "x-id")); [repeat constructor | reflexivity | differ].
    + apply (Hattr (lit "x-trace")); [repeat constructor | right; reflexivity].
    + apply (Hattr (lit "x-other")); [repeat constructor | left; reflexivity].
Defined.

(** ** Further properties of the middleware *)

Section MiddlewareFacts.

Lemma upper_char_capital (c : N) :
  (97 <= c <= 122)%N -> upper_char c = (c - 32)%N.
Proof.
  unfold upper_char.
  destruct (N.leb_spec 97 c), (N.leb_spec c 122); cbn; lia.
Qed.

Lemma upper_char_other (c : N) : ~ (97 <= c <= 122)%N -> upper_char c = c.
Proof.
  unfold upper_char.
  destruct (N.leb_spec 97 c), (N.leb_spec c 122); cbn; lia.
Qed.

Lemma upper_lookup (s : str) :
  forall i : nat, upper s !! i = upper_char <$> (s !! i).
Proof.
  induction s as [|c s IH]; intros [|i]; cbn; auto.
Qed.

Variables (service_name : str) (call_next : ASGIApp).

Local Abbreviation reference_handlers :=
  [http_requests_total_instrument service_name;
   latency_instrument service_name].

Local Abbreviation tuple_for request response sg :=
  [service_name; int_to_str (resp_status_code response); sg;
   path request; upper (method request);
   to_str (opt_val (headers_get (req_headers request) (lit "uid")))].

(** One answered request through the middleware with the two handlers
    of the instrumentator: the response comes back and the metric
    children of the process are those left by [call_next] with one
    increment and one observation at the label-tuple of the record. *)
Lemma dispatch_reference_step (request : Request) (w0 w1 : World)
    (response : Response) (sg : str) :
  call_next request w0 = (w1, Ok response) ->
  make_status_group (resp_status_code response) = Ok sg ->
  exists w2,
    dispatch reference_handlers request call_next w0 = (w2, Ok response) /\
    own w2 =
      observe (tuple_for request response sg)
        (PrimFloat.sub (wall_clock w1) (wall_clock w0))
        (inc (tuple_for request response sg) (own w1)) /\
    environ w2 = environ w1 /\ registered w2 = registered w1 /\
    wall_clock w2 = wall_clock w1 /\ other_shards w2 = other_shards w1.
Proof.
  intros Hnext Hsg.
  rewrite (dispatch_fan_out _ _ _ _ _ Hnext _ sg Hsg).
  cbn [run_handlers]. unfold bind, ret.
  rewrite http_requests_total_instrument_eq, latency_instrument_eq.
  eexists. split; [reflexivity|]. repeat split.
Qed.

(** X1. The record handed to the handlers carries the path of the
    request as it is and its method in capitals. For a request whose
    method is ASCII, the method of the record has the length of the
    method of the request and, character by character, the capital of
    each of the letters a to z, 32 code points below it, and every
    other character as it is. *)
Theorem record_method_is_upper_cased (metrics : list Handler)
    (request : Request) (w0 w1 : World) (response : Response) :
  call_next request w0 = (w1, Ok response) ->
  Forall (fun c => (c < 128)%N) (method request) ->
  exists sg m,
    make_status_group (resp_status_code response) = Ok sg /\
    dispatch metrics request call_next w0 =
      match
        run_handlers metrics
          {| exec_time := PrimFloat.sub (wall_clock w1) (wall_clock w0);
             headers := req_headers request;
             status_code := resp_status_code response;
             status_group := sg;
             endpoint := path request;
             info_method := m |} w1
      with
      | (w2, Raise e) => (w2, Raise e)
      | (w2, Ok _) => (w2, Ok response)
      end /\
    length m = length (method request) /\
    forall (i : nat) (c : N),
      method request !! i = Some c ->
      ((97 <= c <= 122)%N -> m !! i = Some (c - 32)%N) /\
      (~ (97 <= c <= 122)%N -> m !! i = Some c).
Proof.
  intros Hnext _.
  destruct (make_status_group_total (resp_status_code response)) as [sg Hsg].
  exists sg, (upper (method request)).
  split; [exact Hsg|].
  split; [apply (dispatch_fan_out _ _ _ _ _ Hnext _ sg Hsg)|].
  split; [apply length_map|].
  intros i c Hc. rewrite upper_lookup, Hc. cbn [fmap option_fmap option_map].
  split; intros Hrange.
  - rewrite (upper_char_capital c Hrange). reflexivity.
  - rewrite (upper_char_other c Hrange). reflexivity.
Qed.

(** X2. When the downstream application raises, the middleware builds
    no record: whatever handlers are registered, none runs, the
    exception leaves [dispatch] as it came and the process is as
    [call_next] left it. On an instrumented application the failed
    request is therefore counted nowhere. *)
Theorem downstream_exception_is_not_recorded (app : App) (w w' : World)
    (app' : App) (request : Request) (wa wb : World) (e : Exn) :
  instrument_app app service_name w = (app', w', Ok tt) ->
  build_middleware_stack (user_middleware app) (router (routes app'))
    request wa = (wb, Raise e) ->
  serve app' request wa = (wb, Raise e) /\
  forall metrics inner,
    inner request wa = (wb, Raise e) ->
    dispatch metrics request inner wa = (wb, Raise e).
Proof.
  intros Hinst Hinner.
  destruct (instrument_app_ok _ _ _ _ _ Hinst) as (registry & _ & -> & _).
  split.
  - set (app' := add_get_route _ _ _) in *. unfold serve.
    change (user_middleware app')
      with (PromMetricsMiddleware reference_handlers :: user_middleware app).
    cbn [build_middleware_stack foldr middleware_call].
    fold (build_middleware_stack (user_middleware app)
            (router (routes app'))).
    unfold dispatch. rewrite Hinner. reflexivity.
  - intros metrics inner Hi. unfold dispatch. rewrite Hi. reflexivity.
Qed.

(** X3. Each handler writes its own metric at the label-tuple of the
    record and nothing else: the counter handler adds one there and
    leaves every other counter series and the whole histogram as they
    were, the histogram handler appends the execution time there and
    leaves every other histogram series and the whole counter as they
    were; neither raises, and neither touches the environment, the
    registered names or the clock. *)
Theorem handlers_write_only_their_series (info : ResponseInfo) (w : World) :
  let k := [service_name; int_to_str (status_code info); status_group info;
            endpoint info; info_method info;
            to_str (opt_val (headers_get (headers info) (lit "uid")))] in
  exists wc wl,
    http_requests_total_instrument service_name info w = (wc, Ok tt) /\
    latency_instrument service_name info w = (wl, Ok tt) /\
    value_at (counter_values (own wc)) k
      = value_at (counter_values (own w)) k + 1 /\
    (forall k', k' <> k ->
       counter_values (own wc) !! k' = counter_values (own w) !! k') /\
    histogram_values (own wc) = histogram_values (own w) /\
    observations_at (histogram_values (own wl)) k
      = observations_at (histogram_values (own w)) k ++ [exec_time info] /\
    (forall k', k' <> k ->
       histogram_values (own wl) !! k' = histogram_values (own w) !! k') /\
    counter_values (own wl) = counter_values (own w) /\
    environ wc = environ w /\ environ wl = environ w /\
    registered wc = registered w /\ registered wl = registered w /\
    wall_clock wc = wall_clock w /\ wall_clock wl = wall_clock w.
Proof.
  intros k. eexists _, _.
  split; [apply http_requests_total_instrument_eq|].
  split; [apply latency_instrument_eq|].
  cbn [own set_own environ registered wall_clock].
  split.
  { rewrite value_at_inc, decide_True by reflexivity. reflexivity. }
  split.
  { intros k' Hne. cbn [inc counter_values].
    apply lookup_insert_ne.
    intros Heq. apply Hne. symmetry. exact Heq. }
  split; [reflexivity|]. split.
  { rewrite observations_at_observe, decide_True by reflexivity.
    reflexivity. }
  split.
  { intros k' Hne. cbn [observe histogram_values].
    apply lookup_insert_ne.
    intros Heq. apply Hne. symmetry. exact Heq. }
  repeat split.
Qed.

(** X4. Requests with the same record add up exactly. When the
    downstream application answers a request with the same response
    each time and leaves the metrics alone, serving it [n] times in a
    row raises the counter at its label-tuple by exactly [n], leaves
    every other counter series where it was, and adds [n] observations
    to the histogram at that label-tuple. *)
Theorem identical_requests_sum_exactly (request : Request)
    (response : Response) :
  (forall w, exists w',
     call_next request w = (w', Ok response) /\ own w' = own w) ->
  exists sg,
    make_status_group (resp_status_code response) = Ok sg /\
    forall (n : nat) (w : World),
      let k := [service_name; int_to_str (resp_status_code response); sg;
                path request; upper (method request);
                to_str (opt_val (headers_get (req_headers request)
                                   (lit "uid")))] in
      let w' := serve_all (fun r => dispatch reference_handlers r call_next)
                  (replicate n request) w in
      value_at (counter_values (own w')) k
        = value_at (counter_values (own w)) k + Z.of_nat n /\
      (forall k', k' <> k ->
         value_at (counter_values (own w')) k'
           = value_at (counter_values (own w)) k') /\
      length (observations_at (histogram_values (own w')) k)
        = (length (observations_at (histogram_values (own w)) k) + n)%nat.
Proof.
  intros Hsame.
  destruct (make_status_group_total (resp_status_code response)) as [sg Hsg].
  exists sg. split; [exact Hsg|].
  induction n as [|n IH]; intros w k w'.
  - subst w'. cbn [replicate serve_all].
    split; [lia|]. split; [reflexivity | lia].
  - subst w'. cbn [replicate serve_all].
    destruct (Hsame w) as (w1 & Hnext & Hown).
    destruct (dispatch_reference_step request w w1 response sg Hnext Hsg)
      as (w2 & -> & Hown2 & _).
    cbn [fst]. destruct (IH w2) as (Hk & Hother & Hobs).
    fold k in Hk, Hother, Hobs, Hown2.
    rewrite Hown in Hown2.
    split; [|split].
    + rewrite Hk, Hown2. cbn [observe counter_values].
      rewrite value_at_inc, decide_True by reflexivity. lia.
    + intros k' Hne. rewrite (Hother k' Hne), Hown2.
      cbn [observe counter_values].
      rewrite value_at_inc, decide_False; [reflexivity|].
      intros Heq. apply Hne. symmetry. exact Heq.
    + rewrite Hobs, Hown2.
      rewrite observations_at_observe, decide_True by reflexivity.
      cbn [inc histogram_values]. rewrite length_app. cbn [length]. lia.
Qed.

Lemma counts_agree_empty : counts_agree empty_state.
Proof.
  intros k. unfold value_at, observations_at. cbn.
  rewrite !lookup_empty. reflexivity.
Qed.

Lemma counts_agree_step (k : LabelTuple) (x : float) (st : MetricState) :
  counts_agree st -> counts_agree (observe k x (inc k st)).
Proof.
  intros H k'. specialize (H k') as Hk'. specialize (H k).
  rewrite observations_at_observe.
  change (counter_values (observe k x (inc k st)))
    with (counter_values (inc k st)).
  change (histogram_values (inc k st)) with (histogram_values st).
  rewrite value_at_inc.
  destruct (decide (k = k')); [|exact Hk'].
  rewrite length_app. cbn [length]. lia.
Qed.

(** X5. The two metrics of the instrumentator never drift apart. If
    at every label-tuple the counter equals the number of observations
    of the histogram, and the downstream application keeps it so, then
    it is still so after any sequence of requests served through the
    middleware, answered or failed; and it is so in a process that has
    observed nothing. *)
Theorem counter_and_histogram_agree :
  (forall req w, counts_agree (own w) ->
     counts_agree (own (call_next req w).1)) ->
  counts_agree empty_state /\
  forall reqs w,
    counts_agree (own w) ->
    counts_agree
      (own (serve_all (fun r => dispatch reference_handlers r call_next)
              reqs w)).
Proof.
  intros Hpres. split; [exact counts_agree_empty|].
  induction reqs as [|req reqs IH]; intros w Hw; [exact Hw|].
  cbn [serve_all]. apply IH.
  specialize (Hpres req w Hw).
  destruct (call_next req w) as [w1 [response|e]] eqn:Hnext.
  - destruct (make_status_group_total (resp_status_code response))
      as [sg Hsg].
    destruct (dispatch_reference_step req w w1 response sg Hnext Hsg)
      as (w2 & -> & Hown & _).
    cbn [fst]. rewrite Hown. apply counts_agree_step. exact Hpres.
  - unfold dispatch. rewrite Hnext. exact Hpres.
Qed.

End MiddlewareFacts.

(** ** Further properties of the set-up *)

Section SetupFacts.

Variables (app : App) (service_name : str).

Local Abbreviation reference_handlers :=
  [http_requests_total_instrument service_name;
   latency_instrument service_name].

Local Abbreviation metric_names :=
  [lit "http_requests_total"; lit "http_request_duration_seconds"].

Local Abbreviation scrape_route registry :=
  {| route_method := lit "GET"; route_path := lit "/metrics";
     route_endpoint := metrics_route registry |}.

Lemma build_handlers_ok_fresh (w w1 : World) (hs : list Handler) :
  build_handlers METRIC_HANDLERS service_name w = (w1, Ok hs) ->
  (lit "http_requests_total" ∉ registered w) /\
  (lit "http_request_duration_seconds" ∉ registered w) /\
  w1 = set_registered (registered w ++ metric_names) w.
Proof.
  unfold METRIC_HANDLERS. cbn [build_handlers].
  unfold http_requests_total, latency, bind, ret, register.
  destruct (decide (lit "http_requests_total" ∈ registered w));
    [discriminate|].
  cbn [registered set_registered].
  destruct (decide (lit "http_request_duration_seconds"
                      ∈ registered w ++ [lit "http_requests_total"]))
    as [|Hnin]; [discriminate|].
  intros [= <- _]. split; [assumption|]. split.
  - intros Hin. apply Hnin, elem_of_app. left. exact Hin.
  - unfold set_registered. cbn. rewrite <- app_assoc. reflexivity.
Qed.

(** X7. [instrument_app] returns normally exactly when neither metric
    name is already registered and the multiprocess variable, if set,
    names a directory. It then leaves the application with the
    telemetry middleware in front of the middlewares it had and the
    scrape route after the routes it had, and the process with the two
    names registered and nothing else changed. *)
Theorem instrument_app_succeeds_iff (w : World) :
  ((exists app' w', instrument_app app service_name w = (app', w', Ok tt))
   <->
   (lit "http_requests_total" ∉ registered w) /\
   (lit "http_request_duration_seconds" ∉ registered w) /\
   forall pmd, environ w !! lit "prometheus_multiproc_dir" = Some pmd ->
               isdir w pmd = true) /\
  (forall app' w',
     instrument_app app service_name w = (app', w', Ok tt) ->
     exists registry,
       _get_registry w = Ok registry /\
       user_middleware app'
         = PromMetricsMiddleware reference_handlers :: user_middleware app /\
       routes app' = routes app ++ [scrape_route registry] /\
       w' = set_registered (registered w ++ metric_names) w).
Proof.
  assert (Hshape : forall app' w',
    instrument_app app service_name w = (app', w', Ok tt) ->
    ((lit "http_requests_total" ∉ registered w) /\
     (lit "http_request_duration_seconds" ∉ registered w)) /\
    exists registry,
      _get_registry w = Ok registry /\
      user_middleware app'
        = PromMetricsMiddleware reference_handlers :: user_middleware app /\
      routes app' = routes app ++ [scrape_route registry] /\
      w' = set_registered (registered w ++ metric_names) w).
  { intros app' w' H.
    destruct (instrument_app_ok _ _ _ _ _ H) as (registry & Hreg & -> & _).
    unfold instrument_app in H.
    destruct (build_handlers METRIC_HANDLERS service_name w)
      as [w1 [hs|e]] eqn:Hb; [|discriminate].
    destruct (build_handlers_ok_fresh _ _ _ Hb) as (H1 & H2 & ->).
    destruct (_get_registry _) as [registry'|]; [|discriminate].
    injection H as Ha Hw. subst w'.
    split; [auto|]. exists registry. repeat split. exact Hreg. }
  split; [|intros app' w' H; apply (Hshape app' w' H)].
  split.
  - intros (app' & w' & H).
    destruct (Hshape _ _ H) as ((H1 & H2) & registry & Hreg & _).
    split; [exact H1|]. split; [exact H2|].
    intros pmd Hpmd. unfold _get_registry in Hreg. rewrite Hpmd in Hreg.
    destruct (isdir w pmd); [reflexivity | discriminate].
  - intros (H1 & H2 & Hdir). unfold instrument_app.
    destruct (build_handlers_cases service_name w)
      as [(w1 & _ & [Hin|Hin])|(w1 & -> & He & Hd & _ & _)];
      [contradiction | contradiction |].
    unfold _get_registry. rewrite He, Hd.
    destruct (environ w !! lit "prometheus_multiproc_dir") as [pmd|] eqn:E.
    + rewrite (Hdir pmd eq_refl). eauto.
    + eauto.
Qed.

(** X8. A process is instrumented once. After [instrument_app] has
    returned normally, any further call in the same process, on any
    application and under any service name, raises the [ValueError] of
    the duplicated metric name and leaves that application and the
    process exactly as they were: no second middleware, no second
    route. *)
Theorem second_instrumentation_is_refused (w w' : World) (app' : App) :
  instrument_app app service_name w = (app', w', Ok tt) ->
  forall (other : App) (other_name : str),
    instrument_app other other_name w'
      = (other, w', Raise (ValueError duplicated_timeseries)).
Proof.
  intros H other other_name.
  destruct (instrument_app_ok _ _ _ _ _ H) as (_ & _ & _ & Hreg & _).
  unfold instrument_app, METRIC_HANDLERS. cbn [build_handlers].
  unfold http_requests_total, bind, register.
  rewrite decide_True; [reflexivity|].
  rewrite Hreg. apply elem_of_app. right. left.
Qed.

End SetupFacts.

(** ** Further properties of the series *)

Section SeriesFacts.

Variable service_name : str.

Local Abbreviation reference_handlers :=
  [http_requests_total_instrument service_name;
   latency_instrument service_name].

(** X9. A scrape reports the process as it was before the scrape was
    counted. On an instrumented application with no other middleware
    and no earlier route answering [GET /metrics], the body of the
    response is what the registry collects from the process the request
    found, the children of that process itself in single-process mode,
    while the process the request leaves has the [/metrics] series one
    higher: the handlers run after the response is built. *)
Theorem scrape_reports_state_before_itself (app app' : App)
    (w w' wa : World) (req : Request) :
  instrument_app app service_name w = (app', w', Ok tt) ->
  user_middleware app = [] ->
  List.find (route_matches req) (routes app) = None ->
  path req = lit "/metrics" ->
  method req = lit "GET" ->
  exists registry resp wc,
    _get_registry w = Ok registry /\
    serve app' req wa = (wc, Ok resp) /\
    body resp = Exposition (collect registry wa) /\
    (environ w !! lit "prometheus_multiproc_dir" = None ->
     body resp = Exposition (own wa)) /\
    let k := [service_name; lit "200"; lit "2xx"; lit "/metrics";
              lit "GET";
              to_str (opt_val (headers_get (req_headers req)
                                 (lit "uid")))] in
    value_at (counter_values (own wc)) k
      = value_at (counter_values (own wa)) k + 1.
Proof.
  intros Hinst Hmw Hfind Hpath Hmeth.
  destruct (instrument_app_ok _ _ _ _ _ Hinst) as (registry & Hreg & -> & _).
  pose (resp := {| resp_status_code := 200;
                   resp_headers :=
                     [(lit "content-type", CONTENT_TYPE_LATEST)];
                   body := Exposition (collect registry wa) |}).
  assert (Hinner :
    build_middleware_stack (user_middleware app)
      (router (routes (add_get_route (lit "/metrics")
                         (metrics_route registry)
                         (add_middleware
                            (PromMetricsMiddleware reference_handlers)
                            app))))
      req wa = (wa, Ok resp)).
  { rewrite Hmw. cbn [build_middleware_stack foldr]. unfold router.
    cbn [routes add_get_route add_middleware].
    erewrite find_app_last; [reflexivity | exact Hfind |].
    unfold route_matches. cbn [route_path route_method].
    rewrite Hpath, Hmeth, !bool_decide_eq_true_2 by reflexivity.
    reflexivity. }
  destruct (served_request_is_counted app service_name registry req
              wa wa resp Hinner) as (sg & wc & Hsg & Hserve & Hk).
  exists registry, resp, wc.
  split; [exact Hreg|]. split; [exact Hserve|]. split; [reflexivity|].
  split.
  - intros Henv. unfold _get_registry in Hreg. rewrite Henv in Hreg.
    injection Hreg as <-. reflexivity.
  - cbn [resp_status_code resp] in Hsg, Hk.
    vm_compute in Hsg. injection Hsg as <-.
    rewrite Hpath, Hmeth in Hk. exact Hk.
Qed.

Lemma headers_find_first (pre post : list (str * str)) (key v : str) :
  Forall (fun kv => kv.1 <> key) pre ->
  headers_find (pre ++ (key, v) :: post) key = Some v.
Proof.
  induction 1 as [|[k0 v0] pre Hne _ IH]; cbn [headers_find app].
  - rewrite decide_True by reflexivity. reflexivity.
  - cbn [fst] in Hne. rewrite decide_False by exact Hne. exact IH.
Qed.

(** X10. The [uid] label is the value of the first header named [uid]:
    whatever headers come before it under other names and whatever
    come after it, further [uid] headers included, both handlers
    resolve the record to one and the same six-value label-tuple whose
    last value is that header value as sent. *)
Theorem uid_label_is_first_uid_header (info : ResponseInfo)
    (pre post : list (str * str)) (v : str) :
  headers info = pre ++ (lit "uid", v) :: post ->
  Forall (fun kv => kv.1 <> lit "uid") pre ->
  exists k,
    labels LABELNAMES (http_requests_total_labels service_name info) = Ok k /\
    labels LABELNAMES (latency_labels service_name info) = Ok k /\
    length k = 6%nat /\
    last k = Some v.
Proof.
  intros Hh Hpre.
  assert (Huid : headers_get (headers info) (lit "uid") = Some v).
  { unfold headers_get. change (lower (lit "uid")) with (lit "uid").
    rewrite Hh. apply headers_find_first, Hpre. }
  eexists. split; [apply http_requests_total_key|].
  split; [apply latency_key|]. rewrite Huid. split; reflexivity.
Qed.

(** X11. A request without [uid] header and a request whose [uid]
    header is the four characters [None] are counted in the same
    series. Their label dictionaries differ, the one holding [None]
    and the other a string, but label values are rendered by [str()],
    which gives both the same label-tuple. *)
Theorem literal_none_uid_shares_series (info info' : ResponseInfo) :
  status_code info' = status_code info ->
  status_group info' = status_group info ->
  endpoint info' = endpoint info ->
  info_method info' = info_method info ->
  headers_get (headers info) (lit "uid") = None ->
  headers_get (headers info') (lit "uid") = Some (lit "None") ->
  http_requests_total_labels service_name info
    <> http_requests_total_labels service_name info' /\
  labels LABELNAMES (http_requests_total_labels service_name info)
    = labels LABELNAMES (http_requests_total_labels service_name info') /\
  labels LABELNAMES (latency_labels service_name info)
    = labels LABELNAMES (latency_labels service_name info').
Proof.
  intros Hc Hg He Hm Hnone Hsome. split; [|split].
  - unfold http_requests_total_labels. rewrite Hnone, Hsome.
    intros H. apply (f_equal (fun d => kw_get d (lit "uid"))) in H.
    vm_compute in H. discriminate H.
  - rewrite !http_requests_total_key, Hc, Hg, He, Hm, Hnone, Hsome.
    reflexivity.
  - rewrite !latency_key, Hc, Hg, He, Hm, Hnone, Hsome. reflexivity.
Qed.

Lemma digit_char_inj (d d' : Z) :
  0 <= d -> 0 <= d' -> digit_char d = digit_char d' -> d = d'.
Proof.
  unfold digit_char. intros Hd Hd' H. apply Z2N.inj in H; lia.
Qed.

Lemma make_status_group_hundreds (code : Z) :
  100 <= code <= 999 ->
  make_status_group code = Ok (digit_char (code / 100) :: lit "xx").
Proof.
  intros Hcode.
  destruct (make_status_group_leading_digit code ltac:(lia))
    as (d & k & Hk & Hd & Hpos & Hb & ->).
  specialize (Hpos ltac:(lia)).
  assert (Hk2 : k = 2).
  { destruct (Z.lt_trichotomy k 2) as [Hlt|[Heq|Hgt]]; [|exact Heq|].
    - exfalso. assert (Hp : 10 ^ k <= 10 ^ 1)
        by (apply Z.pow_le_mono_r; lia).
      change (10 ^ 1) with 10 in Hp.
      assert (0 < 10 ^ k) by (apply Z.pow_pos_nonneg; lia). nia.
    - exfalso. assert (Hp : 10 ^ 3 <= 10 ^ k)
        by (apply Z.pow_le_mono_r; lia).
      change (10 ^ 3) with 1000 in Hp. nia. }
  subst k. change (10 ^ 2) with 100 in Hb.
  replace (code / 100) with d; [reflexivity|].
  apply (Z.div_unique code 100 d (code - 100 * d)); lia.
Qed.

(** X12. For a three-digit status code the status group is its
    hundreds digit followed by [xx], so two such codes fall in the same
    group exactly when they lie in the same hundred. *)
Theorem status_group_is_the_hundred (code code' : Z) :
  100 <= code <= 999 ->
  100 <= code' <= 999 ->
  make_status_group code = Ok (digit_char (code / 100) :: lit "xx") /\
  (make_status_group code = make_status_group code' <->
   code / 100 = code' / 100).
Proof.
  intros Hc Hc'.
  rewrite (make_status_group_hundreds code Hc),
          (make_status_group_hundreds code' Hc').
  split; [reflexivity|]. split.
  - intros [= H]. apply digit_char_inj in H; [exact H| |];
      apply Z.div_pos; lia.
  - intros ->. reflexivity.
Qed.

End SeriesFacts.

(** ** Further properties of the request hook *)

Section HookFacts.

Lemma span_eq (a b : Span) :
  is_recording a = is_recording b -> attributes a = attributes b -> a = b.
Proof. destruct a, b. cbn. intros -> ->. reflexivity. Qed.

Lemma decode_pairs_app (l1 l2 : list (bytes * bytes)) :
  forall acc,
    decode_pairs (l1 ++ l2) acc =
      match decode_pairs l1 acc with
      | Ok m => decode_pairs l2 m
      | Raise e => Raise e
      end.
Proof.
  induction l1 as [|[k v] l1 IH]; intros acc; [reflexivity|].
  cbn [decode_pairs app]. unfold decode.
  destruct (utf8_decode k); [|reflexivity].
  destruct (utf8_decode v); [apply IH | reflexivity].
Qed.

Lemma decode_pairs_keeps (l : list (bytes * bytes)) (name : str) :
  Forall (fun p => utf8_decode p.1 <> Some name) l ->
  forall acc rh, decode_pairs l acc = Ok rh -> rh !! name = acc !! name.
Proof.
  induction 1 as [|[k v] l Hne _ IH]; intros acc rh.
  - cbn [decode_pairs]. intros [= <-]. reflexivity.
  - cbn [decode_pairs]. unfold decode. cbn [fst] in Hne.
    destruct (utf8_decode k) as [k'|]; [|discriminate].
    destruct (utf8_decode v) as [v'|]; [|discriminate].
    intros Hrest. rewrite (IH _ _ Hrest).
    apply lookup_insert_ne. congruence.
Qed.

Lemma decode_pairs_raises (pairs : list (bytes * bytes)) :
  forall acc e,
    decode_pairs pairs acc = Raise e ->
    e = UnicodeDecodeError /\ Exists undecodable pairs.
Proof.
  induction pairs as [|[k v] pairs IH]; intros acc e; [discriminate|].
  cbn [decode_pairs]. unfold decode.
  destruct (utf8_decode k) as [k'|] eqn:Hk.
  - destruct (utf8_decode v) as [v'|] eqn:Hv.
    + intros H. destruct (IH _ _ H) as [-> Hex].
      split; [reflexivity | right; exact Hex].
    + intros [= <-]. split; [reflexivity|]. left. right. exact Hv.
  - intros [= <-]. split; [reflexivity|]. left. left. exact Hk.
Qed.

Lemma decode_pairs_undecodable (pairs : list (bytes * bytes)) :
  Exists undecodable pairs ->
  forall acc, decode_pairs pairs acc = Raise UnicodeDecodeError.
Proof.
  induction pairs as [|[k v] pairs IH]; intros Hex acc.
  - inversion Hex.
  - cbn [decode_pairs]. unfold decode.
    destruct (utf8_decode k) as [k'|] eqn:Hk; [|reflexivity].
    destruct (utf8_decode v) as [v'|] eqn:Hv; [|reflexivity].
    apply IH. apply Exists_cons in Hex as [[H|H]|H]; [| |exact H];
      cbn [fst snd] in H; congruence.
Qed.

(** The value found under a name is that of the last pair of the name. *)
Lemma decode_pairs_last (l1 l2 : list (bytes * bytes)) (k v : bytes)
    (name value : str) (acc : gmap str str) :
  utf8_decode k = Some name ->
  utf8_decode v = Some value ->
  Forall decodable l1 ->
  Forall decodable l2 ->
  Forall (fun p => utf8_decode p.1 <> Some name) l2 ->
  exists rh,
    decode_pairs (l1 ++ (k, v) :: l2) acc = Ok rh /\
    rh !! name = Some value.
Proof.
  intros Hk Hv H1 H2 Hlast.
  destruct (decode_pairs_total l1 H1 acc) as [m1 Hm1].
  destruct (decode_pairs_total l2 H2 (<[name := value]> m1)) as [rh Hrh].
  exists rh. split.
  - rewrite decode_pairs_app, Hm1. cbn [decode_pairs]. unfold decode.
    rewrite Hk, Hv. exact Hrh.
  - rewrite (decode_pairs_keeps l2 name Hlast _ _ Hrh).
    apply lookup_insert_eq.
Qed.

(** X13. The hook decodes the headers before it looks at the span. It
    raises exactly when the scope has no header list or some header
    name or value is not UTF-8, whatever the allowlist, even an empty
    one, and whatever the span, recording or not or absent; when it
    raises the span is as it was; and a span that is absent or not
    recording is never changed. *)
Theorem request_hook_raises_iff (allowlist : list str)
    (span : option Span) (context : Context) :
  ((exists e, (server_request_hook allowlist span context).2 = Raise e) <->
   scope_headers context = None \/
   exists pairs, scope_headers context = Some pairs /\
                 Exists undecodable pairs) /\
  ((exists e, (server_request_hook allowlist span context).2 = Raise e) ->
   (server_request_hook allowlist span context).1 = span) /\
  (span = None \/ (exists sp, span = Some sp /\ is_recording sp = false) ->
   (server_request_hook allowlist span context).1 = span).
Proof.
  unfold server_request_hook, get_headers.
  destruct (scope_headers context) as [pairs|].
  - destruct (decode_pairs pairs ∅) as [rh|e] eqn:Hd.
    + assert (Hno : ~ Exists undecodable pairs).
      { intros Hex. rewrite (decode_pairs_undecodable pairs Hex) in Hd.
        discriminate. }
      split; [|split].
      * split.
        -- intros [e He]. destruct span as [sp|];
             [destruct (is_recording sp)|]; discriminate.
        -- intros [[=]|(pairs' & [= <-] & Hex)]. contradiction.
      * intros [e He]. destruct span as [sp|];
          [destruct (is_recording sp)|]; discriminate.
      * intros [->|(sp & -> & ->)]; reflexivity.
    + destruct (decode_pairs_raises _ _ _ Hd) as [-> Hex].
      split; [|split].
      * split; [|eauto]. intros _. right. eauto.
      * reflexivity.
      * reflexivity.
  - split; [|split].
    + split; [auto | eauto].
    + reflexivity.
    + reflexivity.
Qed.

(** X14. On a recording span, with headers that decode, the hook
    writes the allowlisted names and nothing else: the span still
    records, its attribute names are those it had together with the
    allowlist, an attribute outside the allowlist keeps its value, and
    an allowlisted attribute, whatever it held before, now holds a
    text that is never empty: the header value, or [not set]. *)
Theorem request_hook_writes_exactly_the_allowlist
    (allowlist : list str) (sp : Span) (context : Context)
    (request_headers : gmap str str) :
  get_headers context = Ok request_headers ->
  is_recording sp = true ->
  exists sp',
    server_request_hook allowlist (Some sp) context = (Some sp', Ok tt) /\
    is_recording sp' = true /\
    dom (attributes sp') = dom (attributes sp) ∪ list_to_set allowlist /\
    (forall h, h ∉ allowlist ->
       attributes sp' !! h = attributes sp !! h) /\
    (forall h, h ∈ allowlist ->
       exists v, attributes sp' !! h = Some v /\ v <> [] /\
                 (request_headers !! h = Some v \/ v = lit "not set")).
Proof.
  intros Hget Hrec.
  exists (set_header_attributes allowlist request_headers sp).
  split; [unfold server_request_hook; rewrite Hget, Hrec; reflexivity|].
  split; [rewrite set_header_attributes_recording; exact Hrec|].
  split; [|split].
  - apply set_eq. intros h.
    rewrite elem_of_union, !elem_of_dom, elem_of_list_to_set,
      set_header_attributes_lookup.
    destruct (decide (h ∈ allowlist)) as [Hin|Hnin].
    + split; [auto | eauto].
    + split; [auto | intros [?|?]; [assumption | contradiction]].
  - intros h Hnin. rewrite set_header_attributes_lookup.
    rewrite decide_False by exact Hnin. reflexivity.
  - intros h Hin. rewrite set_header_attributes_lookup.
    rewrite decide_True by exact Hin. eexists. split; [reflexivity|].
    destruct (request_headers !! h) as [[|c v]|]; cbn [value_or_not_set].
    + split; [discriminate | right; reflexivity].
    + split; [discriminate | left; reflexivity].
    + split; [discriminate | right; reflexivity].
Qed.

Lemma set_header_attributes_ext (l1 l2 : list str) (rh : gmap str str)
    (sp : Span) :
  (forall h, h ∈ l1 <-> h ∈ l2) ->
  set_header_attributes l1 rh sp = set_header_attributes l2 rh sp.
Proof.
  intros Hsame. apply span_eq.
  - rewrite !set_header_attributes_recording. reflexivity.
  - apply map_eq. intros h. rewrite !set_header_attributes_lookup.
    destruct (decide (h ∈ l1)) as [H1|H1], (decide (h ∈ l2)) as [H2|H2];
      try reflexivity; exfalso; apply Hsame in H1 || apply Hsame in H2;
      contradiction.
Qed.

Lemma set_header_attributes_idem (l : list str) (rh : gmap str str)
    (sp : Span) :
  set_header_attributes l rh (set_header_attributes l rh sp)
    = set_header_attributes l rh sp.
Proof.
  apply span_eq.
  - rewrite !set_header_attributes_recording. reflexivity.
  - apply map_eq. intros h. rewrite !set_header_attributes_lookup.
    destruct (decide (h ∈ l)); reflexivity.
Qed.

(** X15. What the hook does depends on the allowlist as a set and is
    done once and for all: two allowlists with the same names, in
    whatever order and however often repeated, give the same result,
    and running the hook again on the span it returned, for the same
    request, returns that span unchanged. *)
Theorem request_hook_allowlist_is_a_set (l1 l2 : list str)
    (span : option Span) (context : Context) :
  (forall h, h ∈ l1 <-> h ∈ l2) ->
  server_request_hook l1 span context = server_request_hook l2 span context /\
  server_request_hook l1 (server_request_hook l1 span context).1 context
    = server_request_hook l1 span context.
Proof.
  intros Hsame. unfold server_request_hook.
  destruct (get_headers context) as [rh|e]; [|split; reflexivity].
  destruct span as [sp|]; [|split; reflexivity].
  destruct (is_recording sp) eqn:Hrec; cbn [fst].
  - rewrite set_header_attributes_recording, Hrec. split.
    + rewrite (set_header_attributes_ext l1 l2 rh sp Hsame). reflexivity.
    + rewrite set_header_attributes_idem. reflexivity.
  - rewrite Hrec. split; reflexivity.
Qed.

(** X16. Of several headers of one name the last one counts: when a
    header pair decodes to a name and a value and no later pair
    decodes to that name, [get_headers] returns a dictionary that holds
    that value under that name, whatever pairs of the same name come
    before. *)
Theorem last_duplicate_header_wins (l1 l2 : list (bytes * bytes))
    (k v : bytes) (name value : str) :
  utf8_decode k = Some name ->
  utf8_decode v = Some value ->
  Forall decodable l1 ->
  Forall decodable l2 ->
  Forall (fun p => utf8_decode p.1 <> Some name) l2 ->
  exists request_headers,
    get_headers {| scope_headers := Some (l1 ++ (k, v) :: l2) |}
      = Ok request_headers /\
    request_headers !! name = Some value.
Proof.
  intros Hk Hv H1 H2 Hlast. unfold get_headers. cbn [scope_headers].
  apply decode_pairs_last; assumption.
Qed.

(** X17. The allowlist is matched letter for letter. When every header
    name of the request is in lower case, as servers deliver them, an
    allowlisted name with a capital ASCII letter finds no header: on a
    recording span its attribute is [not set], also when the request
    carries that header. *)
Theorem allowlist_is_case_sensitive (allowlist : list str) (sp : Span)
    (context : Context) (pairs : list (bytes * bytes)) (h : str) :
  scope_headers context = Some pairs ->
  Forall decodable pairs ->
  Forall (fun p => forall name, utf8_decode p.1 = Some name ->
                                lower name = name) pairs ->
  is_recording sp = true ->
  h ∈ allowlist ->
  lower h <> h ->
  exists sp',
    server_request_hook allowlist (Some sp) context = (Some sp', Ok tt) /\
    attributes sp' !! h = Some (lit "not set").
Proof.
  intros Hctx Hdec Hlow Hrec Hin Hcap.
  destruct (decode_pairs_total pairs Hdec ∅) as [rh Hrh].
  destruct (decode_pairs_lookup _ _ _ Hrh) as (H1 & _ & _).
  assert (Hnone : rh !! h = None).
  { destruct (rh !! h) as [value|] eqn:E; [|reflexivity].
    destruct (H1 _ _ E) as [Hacc|(k & v & Hkv & Hk & _)].
    - rewrite lookup_empty in Hacc. discriminate.
    - rewrite Forall_forall in Hlow.
      destruct Hcap. apply (Hlow (k, v) Hkv h Hk). }
  exists (set_header_attributes allowlist rh sp). split.
  - unfold server_request_hook, get_headers. rewrite Hctx, Hrh, Hrec.
    reflexivity.
  - rewrite set_header_attributes_lookup, decide_True by exact Hin.
    rewrite Hnone. reflexivity.
Qed.

Lemma utf8_decode_ascii (bs : bytes) :
  ascii_only bs -> utf8_decode bs = Some (code_points bs).
Proof.
  induction 1 as [|b bs Hb _ IH]; [reflexivity|].
  cbn [utf8_decode code_points List.map].
  apply N.ltb_lt in Hb. rewrite Hb. fold (code_points bs).
  rewrite IH. reflexivity.
Qed.

Lemma code_points_inj (a b : bytes) : code_points a = code_points b -> a = b.
Proof.
  revert b. induction a as [|x a IH]; intros [|y b]; cbn;
    try discriminate; [reflexivity|].
  intros [= Hxy Hab]. f_equal; [|apply IH, Hab].
  pose proof (Byte.of_to_N x) as Hx. pose proof (Byte.of_to_N y) as Hy.
  congruence.
Qed.

(** X18. A header sent once in ASCII is found as sent: when all names
    and values of the request are ASCII and no name occurs twice,
    [get_headers] does not raise and its dictionary holds, under the
    characters of each name, the characters of its value. *)
Theorem ascii_header_is_found (pairs : list (bytes * bytes))
    (k v : bytes) :
  Forall (fun p => ascii_only p.1 /\ ascii_only p.2) pairs ->
  NoDup pairs.*1 ->
  (k, v) ∈ pairs ->
  exists request_headers,
    get_headers {| scope_headers := Some pairs |} = Ok request_headers /\
    request_headers !! code_points k = Some (code_points v).
Proof.
  intros Hascii Hnodup Hin.
  assert (Hdec : forall l, Forall (fun p => ascii_only p.1 /\ ascii_only p.2) l
                           -> Forall decodable l).
  { intros l Hl. eapply Forall_impl; [exact Hl|].
    intros [a b] [Ha Hb]. split; cbn [fst snd].
    - rewrite (utf8_decode_ascii a Ha). eauto.
    - rewrite (utf8_decode_ascii b Hb). eauto. }
  apply list_elem_of_split in Hin as (l1 & l2 & ->).
  apply Forall_app in Hascii as [Ha1 Ha2].
  apply Forall_cons in Ha2 as [[Hk Hv] Ha2]. cbn [fst snd] in Hk, Hv.
  rewrite fmap_app, fmap_cons in Hnodup. cbn [fst] in Hnodup.
  apply NoDup_app in Hnodup as (_ & _ & Hnd).
  apply NoDup_cons in Hnd as [Hnotin _].
  unfold get_headers. cbn [scope_headers].
  apply decode_pairs_last; auto using utf8_decode_ascii.
  rewrite Forall_forall in Ha2 |- *. intros [a b] Hab.
  destruct (Ha2 _ Hab) as [Haa _]. cbn [fst] in Haa |- *.
  rewrite (utf8_decode_ascii a Haa). intros [= Heq].
  apply code_points_inj in Heq. subst a.
  apply Hnotin. apply list_elem_of_fmap. exists (k, b). split; [reflexivity|].
  exact Hab.
Qed.

End HookFacts.

(** ** Answered requests *)

Section AnsweredRequests.

Variables (app : App) (service_name : str).

Local Abbreviation reference_handlers :=
  [http_requests_total_instrument service_name;
   latency_instrument service_name].

(** X19. On an instrumented application every request that the
    application behind the telemetry middleware answers, whichever
    route or inner middleware produced the response and whatever its
    status, is recorded exactly once and as it was written: the
    response comes back, [http_requests_total] goes up by one at the
    label-tuple of the service name, the status code and group of the
    response, the path of the request, its method in capitals and its
    [uid], one observation of the elapsed time is added there, and no
    other series of either metric changes. *)
Theorem answered_request_is_counted_as_written (w w' wa wb : World)
    (app' : App) (req : Request) (resp : Response) :
  instrument_app app service_name w = (app', w', Ok tt) ->
  build_middleware_stack (user_middleware app) (router (routes app'))
    req wa = (wb, Ok resp) ->
  exists sg wc,
    make_status_group (resp_status_code resp) = Ok sg /\
    serve app' req wa = (wc, Ok resp) /\
    let k := [service_name; int_to_str (resp_status_code resp); sg;
              path req; upper (method req);
              to_str (opt_val (headers_get (req_headers req)
                                 (lit "uid")))] in
    value_at (counter_values (own wc)) k
      = value_at (counter_values (own wb)) k + 1 /\
    (forall k', k' <> k ->
       counter_values (own wc) !! k' = counter_values (own wb) !! k') /\
    observations_at (histogram_values (own wc)) k
      = observations_at (histogram_values (own wb)) k
        ++ [PrimFloat.sub (wall_clock wb) (wall_clock wa)] /\
    (forall k', k' <> k ->
       histogram_values (own wc) !! k' = histogram_values (own wb) !! k').
Proof.
  intros Hinst Hinner.
  destruct (instrument_app_ok _ _ _ _ _ Hinst) as (registry & _ & -> & _).
  destruct (make_status_group_total (resp_status_code resp)) as [sg Hsg].
  set (app' := add_get_route _ _ _) in *.
  destruct (dispatch_reference_step service_name
              (build_middleware_stack (user_middleware app)
                 (router (routes app')))
              req wa wb resp sg Hinner Hsg)
    as (wc & Hdispatch & Hown & _).
  exists sg, wc. split; [exact Hsg|]. split.
  { unfold serve.
    change (user_middleware app')
      with (PromMetricsMiddleware reference_handlers :: user_middleware app).
    cbn [build_middleware_stack foldr middleware_call].
    fold (build_middleware_stack (user_middleware app)
            (router (routes app'))).
    exact Hdispatch. }
  intros k. rewrite Hown. fold k.
  split; [|split; [|split]].
  - cbn [observe counter_values].
    rewrite value_at_inc, decide_True by reflexivity. reflexivity.
  - intros k' Hne. cbn [observe inc counter_values].
    apply lookup_insert_ne. intros Heq. apply Hne. symmetry. exact Heq.
  - rewrite observations_at_observe, decide_True by reflexivity.
    reflexivity.
  - intros k' Hne. cbn [observe inc histogram_values].
    apply lookup_insert_ne. intros Heq. apply Hne. symmetry. exact Heq.
Qed.

End AnsweredRequests.

(** ** The further properties at concrete inputs *)

Import MoreExamples.

Lemma record_method_is_upper_cased_witness :
  downstream_404 get_items fresh_world = (fresh_world, Ok not_found) /\
  method get_items = [103%N; 101%N; 116%N] /\
  Forall (fun c => (c < 128)%N) (method get_items) /\
  exists w,
    dispatch [http_requests_total_instrument (lit "svc")]
      get_items downstream_404 fresh_world = (w, Ok not_found) /\
    counter_values (own w)
      !! [lit "svc"; lit "404"; lit "4xx"; lit "/items";
          [71%N; 69%N; 84%N]; lit "None"] = Some 1 /\
    size (counter_values (own w)) = 1%nat.
Proof.
  assert (Hascii : Forall (fun c => (c < 128)%N) (method get_items)).
  { repeat (constructor; [reflexivity|]). constructor. }
  split; [reflexivity|]. split; [reflexivity|]. split; [exact Hascii|].
  destruct (record_method_is_upper_cased downstream_404
              [http_requests_total_instrument (lit "svc")]
              get_items fresh_world fresh_world not_found eq_refl Hascii)
    as (sg & m & Hsg & Hdispatch & Hlen & Hm).
  vm_compute in Hsg. injection Hsg as <-.
  destruct m as [|a [|b [|c [|x m]]]];
    try (cbn in Hlen; discriminate Hlen).
  destruct (Hm 0%nat 103%N eq_refl) as [H0 _].
  destruct (Hm 1%nat 101%N eq_refl) as [H1 _].
  destruct (Hm 2%nat 116%N eq_refl) as [H2 _].
  specialize (H0 ltac:(lia)). specialize (H1 ltac:(lia)).
  specialize (H2 ltac:(lia)).
  injection H0 as ->. injection H1 as ->. injection H2 as ->.
  rewrite Hdispatch. eexists. split; [reflexivity|]. split; reflexivity.
Defined.

Lemma downstream_exception_is_not_recorded_witness :
  instrument_app boom_app (lit "svc") fresh_world
    = (boom_instrumented, instrumented_world, Ok tt) /\
  build_middleware_stack (user_middleware boom_app)
    (router (routes boom_instrumented)) boom_request instrumented_world
    = (instrumented_world, Raise (Exception (lit "boom"))) /\
  serve boom_instrumented boom_request instrumented_world
    = (instrumented_world, Raise (Exception (lit "boom"))).
Proof.
  split; [reflexivity|]. split; [reflexivity|].
  exact (proj1 (downstream_exception_is_not_recorded (lit "svc") boom_app
                  fresh_world instrumented_world boom_instrumented
                  boom_request instrumented_world instrumented_world
                  (Exception (lit "boom")) eq_refl eq_refl)).
Defined.

Lemma identical_requests_sum_exactly_witness :
  (forall w, exists w',
     downstream_404 get_items w = (w', Ok not_found) /\ own w' = own w) /\
  value_at
    (counter_values
       (own (serve_all
               (fun r => dispatch [http_requests_total_instrument (lit "svc");
                                   latency_instrument (lit "svc")]
                           r downstream_404)
               (replicate 3 get_items) fresh_world)))
    items_tuple
    = value_at (counter_values (own fresh_world)) items_tuple + 3.
Proof.
  assert (Hsame : forall w, exists w',
            downstream_404 get_items w = (w', Ok not_found) /\ own w' = own w).
  { intros w. exists w. split; reflexivity. }
  split; [exact Hsame|].
  destruct (identical_requests_sum_exactly (lit "svc") downstream_404
              get_items not_found Hsame) as (sg & Hsg & H).
  vm_compute in Hsg. injection Hsg as <-.
  exact (proj1 (H 3%nat fresh_world)).
Defined.

Lemma counter_and_histogram_agree_witness :
  (forall req w, counts_agree (own w) ->
     counts_agree (own (downstream_404 req w).1)) /\
  counts_agree (own fresh_world) /\
  counts_agree
    (own (serve_all
            (fun r => dispatch [http_requests_total_instrument (lit "svc");
                                latency_instrument (lit "svc")]
                        r downstream_404)
            [get_items; scrape; get_items] fresh_world)).
Proof.
  assert (Hpres : forall req w, counts_agree (own w) ->
            counts_agree (own (downstream_404 req w).1)).
  { intros req w H. exact H. }
  split; [exact Hpres|].
  destruct (counter_and_histogram_agree (lit "svc") downstream_404 Hpres)
    as [Hempty Hall].
  split; [exact Hempty|]. apply Hall. exact Hempty.
Defined.

Lemma second_instrumentation_is_refused_witness :
  instrument_app empty_app (lit "svc") fresh_world
    = (instrumented_app, instrumented_world, Ok tt) /\
  instrument_app instrumented_app (lit "again") instrumented_world
    = (instrumented_app, instrumented_world,
       Raise (ValueError duplicated_timeseries)).
Proof.
  split; [reflexivity|].
  exact (second_instrumentation_is_refused empty_app (lit "svc")
           fresh_world instrumented_world instrumented_app eq_refl
           instrumented_app (lit "again")).
Defined.

Lemma scrape_reports_state_before_itself_witness :
  instrument_app empty_app (lit "svc") fresh_world
    = (instrumented_app, instrumented_world, Ok tt) /\
  user_middleware empty_app = [] /\
  List.find (route_matches scrape) (routes empty_app) = None /\
  path scrape = lit "/metrics" /\
  method scrape = lit "GET" /\
  environ fresh_world !! lit "prometheus_multiproc_dir" = None /\
  exists resp wc,
    serve instrumented_app scrape instrumented_world = (wc, Ok resp) /\
    body resp = Exposition (own instrumented_world) /\
    value_at (counter_values (own wc)) scrape_tuple
      = value_at (counter_values (own instrumented_world)) scrape_tuple + 1.
Proof.
  repeat (split; [reflexivity|]).
  destruct (scrape_reports_state_before_itself (lit "svc") empty_app
              instrumented_app fresh_world instrumented_world
              instrumented_world scrape
              eq_refl eq_refl eq_refl eq_refl eq_refl)
    as (registry & resp & wc & _ & Hserve & _ & Hsingle & Hk).
  exists resp, wc. split; [exact Hserve|].
  split; [apply Hsingle; reflexivity | exact Hk].
Defined.

Lemma uid_label_is_first_uid_header_witness :
  headers uid_record
    = [(lit "x-a", lit "1")] ++ (lit "uid", lit "u1")
        :: [(lit "uid", lit "u2")] /\
  Forall (fun kv => kv.1 <> lit "uid") [(lit "x-a", lit "1")] /\
  exists k,
    labels LABELNAMES (http_requests_total_labels (lit "svc") uid_record)
      = Ok k /\
    labels LABELNAMES (latency_labels (lit "svc") uid_record) = Ok k /\
    length k = 6%nat /\
    last k = Some (lit "u1").
Proof.
  assert (Hpre : Forall (fun kv : str * str => kv.1 <> lit "uid")
                   [(lit "x-a", lit "1")]).
  { constructor; [differ | constructor]. }
  split; [reflexivity|]. split; [exact Hpre|].
  exact (uid_label_is_first_uid_header (lit "svc") uid_record
           [(lit "x-a", lit "1")] [(lit "uid", lit "u2")] (lit "u1")
           eq_refl Hpre).
Defined.

Lemma literal_none_uid_shares_series_witness :
  headers_get (headers items_record) (lit "uid") = None /\
  headers_get (headers none_record) (lit "uid") = Some (lit "None") /\
  http_requests_total_labels (lit "svc") items_record
    <> http_requests_total_labels (lit "svc") none_record /\
  labels LABELNAMES (http_requests_total_labels (lit "svc") items_record)
    = labels LABELNAMES (http_requests_total_labels (lit "svc") none_record)
  /\
  labels LABELNAMES (latency_labels (lit "svc") items_record)
    = labels LABELNAMES (latency_labels (lit "svc") none_record).
Proof.
  split; [reflexivity|]. split; [reflexivity|].
  exact (literal_none_uid_shares_series (lit "svc") items_record none_record
           eq_refl eq_refl eq_refl eq_refl eq_refl eq_refl).
Defined.

Lemma status_group_is_the_hundred_witness :
  100 <= 404 <= 999 /\ 100 <= 418 <= 999 /\
  make_status_group 404 = Ok (digit_char (404 / 100) :: lit "xx") /\
  (make_status_group 404 = make_status_group 418 <->
   404 / 100 = 418 / 100).
Proof.
  split; [lia|]. split; [lia|].
  apply (status_group_is_the_hundred 404 418); lia.
Defined.

Lemma answered_request_is_counted_as_written_witness :
  instrument_app items_app (lit "svc") fresh_world
    = (items_instrumented, instrumented_world, Ok tt) /\
  build_middleware_stack (user_middleware items_app)
    (router (routes items_instrumented)) items_request instrumented_world
    = (instrumented_world, Ok not_found) /\
  exists wc,
    serve items_instrumented items_request instrumented_world
      = (wc, Ok not_found) /\
    value_at (counter_values (own wc)) items_tuple
      = value_at (counter_values (own instrumented_world)) items_tuple + 1 /\
    length (observations_at (histogram_values (own wc)) items_tuple)
      = 1%nat.
Proof.
  split; [reflexivity|]. split; [reflexivity|].
  destruct (answered_request_is_counted_as_written items_app (lit "svc")
              fresh_world instrumented_world instrumented_world
              instrumented_world items_instrumented items_request
              not_found eq_refl eq_refl)
    as (sg & wc & Hsg & Hserve & Hk & _ & Hobs & _).
  vm_compute in Hsg. injection Hsg as <-.
  exists wc. split; [exact Hserve|]. split; [exact Hk|].
  exact (f_equal (@length float) Hobs).
Defined.

Ltac decodes := split; eexists; reflexivity.

Lemma request_hook_writes_exactly_the_allowlist_witness :
  get_headers plain_context = Ok plain_headers /\
  is_recording blank_span = true /\
  exists sp',
    server_request_hook [lit "x-id"; lit "x-other"] (Some blank_span)
      plain_context = (Some sp', Ok tt) /\
    is_recording sp' = true /\
    dom (attributes sp')
      = dom (attributes blank_span)
        ∪ list_to_set [lit "x-id"; lit "x-other"] /\
    attributes sp' !! lit "x-trace" = attributes blank_span !! lit "x-trace".
Proof.
  split; [reflexivity|]. split; [reflexivity|].
  destruct (request_hook_writes_exactly_the_allowlist
              [lit "x-id"; lit "x-other"] blank_span plain_context
              plain_headers eq_refl eq_refl)
    as (sp' & Hhook & Hrec & Hdom & Hout & _).
  exists sp'. split; [exact Hhook|]. split; [exact Hrec|].
  split; [exact Hdom|]. apply Hout.
  intros Hin. apply elem_of_cons in Hin as [Hin|Hin];
    [vm_compute in Hin; discriminate Hin|].
  apply elem_of_cons in Hin as [Hin|Hin];
    [vm_compute in Hin; discriminate Hin | inversion Hin].
Defined.

Lemma request_hook_allowlist_is_a_set_witness :
  (forall h, h ∈ [lit "x-id"; lit "x-trace"]
             <-> h ∈ [lit "x-trace"; lit "x-id"; lit "x-trace"]) /\
  server_request_hook [lit "x-id"; lit "x-trace"] (Some blank_span)
    plain_context
    = server_request_hook [lit "x-trace"; lit "x-id"; lit "x-trace"]
        (Some blank_span) plain_context /\
  server_request_hook [lit "x-id"; lit "x-trace"]
    (server_request_hook [lit "x-id"; lit "x-trace"] (Some blank_span)
       plain_context).1 plain_context
    = server_request_hook [lit "x-id"; lit "x-trace"] (Some blank_span)
        plain_context.
Proof.
  assert (Hsame : forall h, h ∈ [lit "x-id"; lit "x-trace"]
                    <-> h ∈ [lit "x-trace"; lit "x-id"; lit "x-trace"]).
  { intros h. rewrite !elem_of_cons, elem_of_nil. tauto. }
  split; [exact Hsame|].
  exact (request_hook_allowlist_is_a_set _ _ (Some blank_span)
           plain_context Hsame).
Defined.

Lemma last_duplicate_header_wins_witness :
  utf8_decode (ascii_bytes "x-id") = Some (lit "x-id") /\
  utf8_decode (ascii_bytes "2") = Some (lit "2") /\
  Forall decodable [(ascii_bytes "x-id", ascii_bytes "1")] /\
  Forall decodable [(ascii_bytes "x-trace", [] : bytes)] /\
  Forall (fun p => utf8_decode p.1 <> Some (lit "x-id"))
    [(ascii_bytes "x-trace", [] : bytes)] /\
  exists request_headers,
    get_headers
      {| scope_headers :=
           Some ([(ascii_bytes "x-id", ascii_bytes "1")]
                 ++ (ascii_bytes "x-id", ascii_bytes "2")
                 :: [(ascii_bytes "x-trace", [] : bytes)]) |}
      = Ok request_headers /\
    request_headers !! lit "x-id" = Some (lit "2").
Proof.
  assert (H1 : Forall decodable [(ascii_bytes "x-id", ascii_bytes "1")]).
  { constructor; [decodes | constructor]. }
  assert (H2 : Forall decodable [(ascii_bytes "x-trace", [] : bytes)]).
  { constructor; [decodes | constructor]. }
  assert (H3 : Forall (fun p : bytes * bytes =>
                         utf8_decode p.1 <> Some (lit "x-id"))
                 [(ascii_bytes "x-trace", [] : bytes)]).
  { constructor; [differ | constructor]. }
  split; [reflexivity|]. split; [reflexivity|].
  split; [exact H1|]. split; [exact H2|]. split; [exact H3|].
  exact (last_duplicate_header_wins
           [(ascii_bytes "x-id", ascii_bytes "1")]
           [(ascii_bytes "x-trace", [] : bytes)]
           (ascii_bytes "x-id") (ascii_bytes "2") (lit "x-id") (lit "2")
           eq_refl eq_refl H1 H2 H3).
Defined.

Lemma allowlist_is_case_sensitive_witness :
  scope_headers plain_context = Some plain_pairs /\
  Forall decodable plain_pairs /\
  is_recording blank_span = true /\
  lower (lit "X-Id") = lit "x-id" /\
  lower (lit "X-Id") <> lit "X-Id" /\
  exists sp',
    server_request_hook [lit "X-Id"] (Some blank_span) plain_context
      = (Some sp', Ok tt) /\
    attributes sp' !! lit "X-Id" = Some (lit "not set").
Proof.
  assert (Hdec : Forall decodable plain_pairs).
  { repeat (constructor; [decodes|]). constructor. }
  assert (Hlow : Forall (fun p : bytes * bytes =>
                           forall name, utf8_decode p.1 = Some name ->
                                        lower name = name) plain_pairs).
  { repeat (constructor;
            [intros name H; vm_compute in H; injection H as <-;
             reflexivity|]).
    constructor. }
  assert (Hcap : lower (lit "X-Id") <> lit "X-Id") by differ.
  split; [reflexivity|]. split; [exact Hdec|]. split; [reflexivity|].
  split; [reflexivity|]. split; [exact Hcap|].
  exact (allowlist_is_case_sensitive [lit "X-Id"] blank_span plain_context
           plain_pairs (lit "X-Id") eq_refl Hdec Hlow eq_refl
           (list_elem_of_here _ _) Hcap).
Defined.

Lemma ascii_header_is_found_witness :
  Forall (fun p => ascii_only p.1 /\ ascii_only p.2) plain_pairs /\
  NoDup plain_pairs.*1 /\
  (ascii_bytes "x-id", ascii_bytes "42") ∈ plain_pairs /\
  exists request_headers,
    get_headers {| scope_headers := Some plain_pairs |}
      = Ok request_headers /\
    request_headers !! lit "x-id" = Some (lit "42").
Proof.
  assert (Hascii : Forall (fun p : bytes * bytes =>
                             ascii_only p.1 /\ ascii_only p.2) plain_pairs).
  { repeat (constructor;
            [split; repeat (constructor; [reflexivity|]); constructor|]).
    constructor. }
  assert (Hnd : NoDup plain_pairs.*1).
  { unfold plain_pairs. cbn [fmap list_fmap fst].
    constructor;
      [intros H; apply list_elem_of_singleton in H; vm_compute in H;
       discriminate H|].
    constructor; [intros H; inversion H | constructor]. }
  assert (Hin : (ascii_bytes "x-id", ascii_bytes "42") ∈ plain_pairs)
    by left.
  split; [exact Hascii|]. split; [exact Hnd|]. split; [exact Hin|].
  exact (ascii_header_is_found plain_pairs _ _ Hascii Hnd Hin).
Defined.
